(** * TRMS mock system: accounts, transfers and their queries

    A shallow embedding of the Flask blueprint [src/trms.py] and of the two
    SQLAlchemy models of [src/account.py], with the properties of the
    transaction-posting handler [create_transaction] and of the two listing
    queries [get_accounts] and [get_transactions].

    Modelling notes.
    - The [accounts] table is a finite map from the primary key [id] to the
      remaining columns; the [transactions] table is the list of its rows in
      insertion order (newest row last).
    - [balance] and [amount] are Python [decimal.Decimal] values.  A finite
      decimal is a coefficient and an exponent; arithmetic runs in the default
      context (28 significant digits, ROUND_HALF_EVEN, Emax 999999, traps on
      InvalidOperation and Overflow).  The sign of a zero is not kept.
    - The storage engine is outside the sources: a committed row keeps the
      values the handler gave it, and a request that raises is rolled back.
      The columns are Numeric(15, 2): they hold a value of two decimal places
      and at most 15 digits as it is; what the engine makes of any other
      value is not modelled, and the statements about stored or returned
      values keep to balances and amounts of that form.
    - Strings are byte strings; [upper], [lower] and the conversion of a text
      to a Decimal are those of Python on ASCII text ([ascii_text]). *)

From Stdlib Require Import ZArith Lia Bool Ascii String List Permutation Sorted.
From stdpp Require Import base option list strings gmap sorting.

Local Open Scope Z_scope.

(** ** Exceptions and the error monad of a request *)

Inductive exn : Type :=
| InvalidOperation   (* decimal.InvalidOperation *)
| Overflow           (* decimal.Overflow *)
| AttributeError     (* [.upper()] on a JSON value that is not a string *)
| KeyError           (* [data[field]] on an absent key *)
| IntegrityError.    (* primary-key collision at commit *)

Inductive result (A : Type) : Type :=
| Ok (a : A)
| Raise (e : exn).
Arguments Ok {A} a.
Arguments Raise {A} e.

Definition rbind {A B : Type} (r : result A) (k : A -> result B) : result B :=
  match r with
  | Ok a => k a
  | Raise e => Raise e
  end.

Notation "x <-- r ;; k" := (rbind r (fun x => k))
  (at level 100, r at next level, right associativity).

(** ** Python's [decimal.Decimal] in the default context *)

Module Decimal.

Inductive t : Type :=
| Fin (c e : Z)            (* the number c * 10^e *)
| Inf (neg : bool)         (* Infinity / -Infinity *)
| NaN (signaling : bool).  (* NaN / sNaN *)

Definition prec : Z := 28.
Definition Emax : Z := 999999.
Definition Emin : Z := -999999.
Definition Etiny : Z := Emin - prec + 1.
Definition Etop : Z := Emax - prec + 1.

(** [len(self._int)]: the number of decimal digits of the coefficient. *)
Fixpoint ndigits_fuel (fuel : nat) (n : Z) : Z :=
  match fuel with
  | O => 1
  | S f => if n <? 10 then 1 else 1 + ndigits_fuel f (n / 10)
  end.

Definition ndigits (n : Z) : Z :=
  ndigits_fuel (Z.to_nat (Z.log2 (Z.abs n))) (Z.abs n).

(** Drop the last [k] digits of [n >= 0], rounding half to even. *)
Definition round_half_even (n k : Z) : Z :=
  let p := 10 ^ k in
  let q := n / p in
  let r := n mod p in
  if (p <? 2 * r) || ((p =? 2 * r) && Z.odd q) then q + 1 else q.

(** [Decimal._fix]: bring an exact result into the context. *)
Definition fix_ (c e : Z) : result t :=
  if c =? 0 then Ok (Fin 0 (Z.min (Z.max e Etiny) Emax))
  else
    let exp_min := ndigits c + e - prec in
    if Etop <? exp_min then Raise Overflow
    else
      let exp_min := Z.max exp_min Etiny in
      if e <? exp_min then
        let coeff := round_half_even (Z.abs c) (exp_min - e) in
        let '(coeff, exp_min) :=
          if prec <? ndigits coeff then (coeff / 10, exp_min + 1)
          else (coeff, exp_min) in
        if Etop <? exp_min then Raise Overflow
        else Ok (Fin (Z.sgn c * coeff) exp_min)
      else Ok (Fin c e).

Definition neg (a : t) : t :=
  match a with
  | Fin c e => Fin (- c) e
  | Inf s => Inf (negb s)
  | NaN s => NaN s
  end.

(** [Decimal.__add__]. *)
Definition add (a b : t) : result t :=
  match a, b with
  | NaN true, _ => Raise InvalidOperation
  | _, NaN true => Raise InvalidOperation
  | NaN false, _ => Ok (NaN false)
  | _, NaN false => Ok (NaN false)
  | Inf s1, Inf s2 =>
      if Bool.eqb s1 s2 then Ok (Inf s1) else Raise InvalidOperation
  | Inf s, Fin _ _ => Ok (Inf s)
  | Fin _ _, Inf s => Ok (Inf s)
  | Fin c1 e1, Fin c2 e2 =>
      let m := Z.min e1 e2 in
      fix_ (c1 * 10 ^ (e1 - m) + c2 * 10 ^ (e2 - m)) m
  end.

(** [Decimal.__sub__]: [self + other.copy_negate()]. *)
Definition sub (a b : t) : result t := add a (neg b).

(** [Decimal._cmp] on two values that are not NaN. *)
Definition cmp (a b : t) : comparison :=
  match a, b with
  | Fin c1 e1, Fin c2 e2 =>
      let m := Z.min e1 e2 in
      Z.compare (c1 * 10 ^ (e1 - m)) (c2 * 10 ^ (e2 - m))
  | Inf s1, Inf s2 =>
      if Bool.eqb s1 s2 then Eq else if s1 then Lt else Gt
  | Inf s, _ => if s then Lt else Gt
  | _, Inf s => if s then Gt else Lt
  | _, _ => Eq
  end.

(** [Decimal.__lt__]: an ordering comparison with a NaN signals. *)
Definition lt (a b : t) : result bool :=
  match a, b with
  | NaN _, _ | _, NaN _ => Raise InvalidOperation
  | _, _ => Ok (match cmp a b with Lt => true | _ => false end)
  end.

(** *** The constructor [Decimal(str)] *)

Definition is_space (a : ascii) : bool :=
  let n := N_of_ascii a in
  (((9 <=? n) && (n <=? 13)) || ((28 <=? n) && (n <=? 32)))%N.

Definition is_digit (a : ascii) : bool :=
  let n := N_of_ascii a in ((48 <=? n) && (n <=? 57))%N.

Definition digit_val (a : ascii) : Z := Z.of_N (N_of_ascii a) - 48.

Definition lower (a : ascii) : ascii :=
  let n := N_of_ascii a in
  if ((65 <=? n) && (n <=? 90))%N then ascii_of_N (n + 32) else a.

Fixpoint lstrip (l : list ascii) : list ascii :=
  match l with
  | a :: l' => if is_space a then lstrip l' else l
  | [] => []
  end.

Definition strip (l : list ascii) : list ascii :=
  rev (lstrip (rev (lstrip l))).

(** The longest prefix of digits, and what follows it. *)
Fixpoint span_digits (l : list ascii) : list ascii * list ascii :=
  match l with
  | a :: l' =>
      if is_digit a then let '(ds, r) := span_digits l' in (a :: ds, r)
      else ([], l)
  | [] => ([], [])
  end.

Definition int_of_digits (ds : list ascii) : Z :=
  fold_left (fun acc a => 10 * acc + digit_val a) ds 0.

Definition all_digits (l : list ascii) : bool := forallb is_digit l.

Definition ascii_list_eqb (l1 l2 : list ascii) : bool :=
  bool_decide (l1 = l2).

(** The exponent part, [E], an optional sign and at least one digit, up to
    the end of the text; without an exponent part the exponent is 0. *)
Definition parse_exponent (l : list ascii) : option Z :=
  match l with
  | [] => Some 0
  | a :: l' =>
      if Ascii.eqb (lower a) "e" then
        let '(sgn, ds) :=
          match l' with
          | "-"%char :: ds => (-1, ds)
          | "+"%char :: ds => (1, ds)
          | _ => (1, l')
          end in
        match ds with
        | [] => None
        | _ => if all_digits ds then Some (sgn * int_of_digits ds) else None
        end
      else None
  end.

(** The numeric branch of the pattern: digits, an optional point and
    digits, an optional exponent; at least one digit before the exponent. *)
Definition parse_number (l : list ascii) : option (Z * Z) :=
  let '(ip, r1) := span_digits l in
  let '(fp, r2) :=
    match r1 with
    | "."%char :: r => span_digits r
    | _ => ([], r1)
    end in
  match ip, fp with
  | [], [] => None
  | _, _ =>
      match parse_exponent r2 with
      | Some ex =>
          Some (int_of_digits (ip ++ fp), ex - Z.of_nat (length fp))
      | None => None
      end
  end.

(** The constructor is exact and CPython's decimal holds exponents between
    [MIN_ETINY] and [MAX_EMAX] only: a number whose adjusted exponent
    [e + len(digits) - 1] is above [MAX_EMAX], or whose exponent is below
    [MIN_ETINY], is refused with InvalidOperation. *)
Definition MAX_EMAX : Z := 999999999999999999.
Definition MIN_ETINY : Z := -1999999999999999997.

Definition representable (c e : Z) : bool :=
  (e + ndigits c - 1 <=? MAX_EMAX) && (MIN_ETINY <=? e).

Definition parse_unsigned (neg : bool) (l : list ascii) : option t :=
  let low := map lower l in
  if ascii_list_eqb low (list_ascii_of_string "inf")
     || ascii_list_eqb low (list_ascii_of_string "infinity")
  then Some (Inf neg)
  else
    match low with
    | "n"%char :: "a"%char :: "n"%char :: ds =>
        if all_digits ds then Some (NaN false) else None
    | "s"%char :: "n"%char :: "a"%char :: "n"%char :: ds =>
        if all_digits ds then Some (NaN true) else None
    | _ =>
        match parse_number l with
        | Some (c, e) =>
            if representable c e then Some (Fin (if neg then - c else c) e)
            else None
        | None => None
        end
    end.

(** [Decimal(s)] on ASCII text: [None] when the constructor raises
    InvalidOperation.  (Python reads the digits and the white space of other
    scripts as well; the statements that depend on a text being refused
    take the text to be ASCII.) *)
Definition of_string (s : string) : option t :=
  let l := filter (fun a => a <> "_"%char) (strip (list_ascii_of_string s)) in
  match l with
  | "-"%char :: l' => parse_unsigned true l'
  | "+"%char :: l' => parse_unsigned false l'
  | _ => parse_unsigned false l
  end.

End Decimal.

(** ** Strings *)

(** [str.upper] on the ASCII letters. *)
Definition upper_ascii (a : ascii) : ascii :=
  let n := N_of_ascii a in
  if ((97 <=? n) && (n <=? 122))%N then ascii_of_N (n - 32) else a.

Fixpoint upper (s : string) : string :=
  match s with
  | EmptyString => EmptyString
  | String a s' => String (upper_ascii a) (upper s')
  end.

(** ** The models of [src/account.py] *)

Module Account.
(** A row of [accounts]; the primary key [id] is the key of the table. *)
Record t : Type := mk {
  name : string;
  currency : string;
  account_type : string;
  status : string;
  balance : Decimal.t;
  created_at : Z
}.

Definition with_balance (a : t) (b : Decimal.t) : t :=
  mk (name a) (currency a) (account_type a) (status a) b (created_at a).

Definition with_status (a : t) (st : string) : t :=
  mk (name a) (currency a) (account_type a) st (balance a) (created_at a).
End Account.

Module Transaction.
Record t : Type := mk {
  id : string;
  from_account : string;
  to_account : string;
  amount : Decimal.t;
  currency : string;
  description : string;
  status : string;
  created_at : Z
}.
End Transaction.

(** The database: both tables. *)
Record db : Type := mkdb {
  accounts : gmap string Account.t;
  transactions : list Transaction.t
}.

(** ** The request body of [POST /transactions] *)

(** A JSON value where the handler wants a string. *)
Inductive jtext : Type :=
| JString (s : string)
| JNotString.

(** The keys of [request.json] the handler reads; [None] is an absent key.
    [amount] holds [str(data['amount'])], the only use of that value. *)
Module Request.
Record t : Type := mk {
  from_account : option string;
  to_account : option string;
  amount : option string;
  currency : option jtext;
  description : option string
}.

(** [field in data]. *)
Definition has (data : t) (field : string) : bool :=
  if String.eqb field "from_account" then bool_decide (is_Some (from_account data))
  else if String.eqb field "to_account" then bool_decide (is_Some (to_account data))
  else if String.eqb field "amount" then bool_decide (is_Some (amount data))
  else if String.eqb field "currency" then bool_decide (is_Some (currency data))
  else if String.eqb field "description" then bool_decide (is_Some (description data))
  else false.
End Request.

(** ** Responses *)

Inductive response : Type :=
| RespError (msg : string) (code : Z)         (* [jsonify({'error': msg}), code] *)
| RespCreated (t : Transaction.t) (code : Z)  (* [jsonify(transaction.to_dict()), code] *)
| RespRaise (e : exn).                        (* an exception leaves the handler *)

(** ** [create_transaction] *)

Definition required_fields : list string :=
  ["from_account"; "to_account"; "amount"; "currency"]%string.

(** [obj.balance = f(obj.balance)] on the object with primary key [id]: the
    session holds one object per key, so two names for one key share it. *)
Definition update_balance (f : Decimal.t -> result Decimal.t) (id : string)
    (m : gmap string Account.t) : result (gmap string Account.t) :=
  match m !! id with
  | Some a => b <-- f (Account.balance a) ;; Ok (<[id := Account.with_balance a b]> m)
  | None => Ok m
  end.

(** The handler from the conversion of the amount on; an exception leaves it
    before the commit. *)
Definition post (hex : string) (now : Z) (from_id to_id amount_text : string)
    (cur : jtext) (descr : string) (from_account : Account.t) (s : db)
    : result (response * db) :=
  amount <-- match Decimal.of_string amount_text with
             | Some d => Ok d
             | None => Raise InvalidOperation
             end ;;
  insufficient <-- Decimal.lt (Account.balance from_account) amount ;;
  if insufficient : bool then Ok (RespError "Insufficient funds" 400, s)
  else
    currency <-- match cur with
                 | JString c => Ok (upper c)
                 | JNotString => Raise AttributeError
                 end ;;
    let transaction :=
      Transaction.mk (String.append "TXN-" (upper (substring 0 8 hex)))
        from_id to_id amount currency descr "Completed" now in
    accounts1 <-- update_balance (fun b => Decimal.sub b amount) from_id (accounts s) ;;
    accounts2 <-- update_balance (fun b => Decimal.add b amount) to_id accounts1 ;;
    if existsb (fun t => String.eqb (Transaction.id t) (Transaction.id transaction))
         (transactions s)
    then Raise IntegrityError
    else Ok (RespCreated transaction 201,
             mkdb accounts2 (transactions s ++ [transaction])).

(** [hex] is [uuid.uuid4().hex] and [now] the clock at the insert. *)
Definition create_transaction (hex : string) (now : Z) (data : Request.t) (s : db)
    : response * db :=
  match find (fun field => negb (Request.has data field)) required_fields with
  | Some field =>
      (RespError (String.append "Missing required field: " field) 400, s)
  | None =>
      match Request.from_account data, Request.to_account data,
            Request.amount data, Request.currency data with
      | Some from_id, Some to_id, Some amount_text, Some cur =>
          match accounts s !! from_id with
          | None => (RespError "Source account not found" 404, s)
          | Some from_account =>
              match accounts s !! to_id with
              | None => (RespError "Target account not found" 404, s)
              | Some _ =>
                  match post hex now from_id to_id amount_text cur
                          (default EmptyString (Request.description data))
                          from_account s with
                  | Ok r => r
                  | Raise e => (RespRaise e, s)
                  end
              end
          end
      | _, _, _, _ => (RespRaise KeyError, s)
      end
  end.

(** ** [get_accounts] *)

(** [currency] is [request.args.get('currency')]; a row is its key and its
    other columns. *)
Definition get_accounts (currency : option string) (s : db)
    : list (string * Account.t) :=
  match currency with
  | Some c =>
      if negb (String.eqb c "") then
        filter (fun r => Account.currency r.2 = upper c) (map_to_list (accounts s))
      else map_to_list (accounts s)
  | None => map_to_list (accounts s)
  end.

(** ** [get_transactions] *)

Definition newer_first (a b : Transaction.t) : Prop :=
  Transaction.created_at b <= Transaction.created_at a.

(** What [ORDER BY created_at DESC] alone asks of a listing: the rows of the
    table, no row before a more recent one. *)
Definition get_transactions_returns (s : db) (out : list Transaction.t) : Prop :=
  out ≡ₚ transactions s /\ Sorted newer_first out.

(** The listing of the query: the rows of the table sorted by [created_at],
    newest first.  The query names no second key and the sort of the engine
    keeps rows of equal [created_at] in the order of the table, which is the
    order of insertion: each row is put behind the rows at least as recent. *)
Fixpoint insert_newer_first (t : Transaction.t) (l : list Transaction.t)
    : list Transaction.t :=
  match l with
  | [] => [t]
  | x :: l' =>
      if Transaction.created_at x <? Transaction.created_at t
      then t :: l
      else x :: insert_newer_first t l'
  end.

Definition get_transactions (s : db) : list Transaction.t :=
  fold_left (fun acc t => insert_newer_first t acc) (transactions s) [].

(** ** Vocabulary of the statements *)

(** The balance of the account [id], if there is one. *)
Definition balance_of (s : db) (id : string) : option Decimal.t :=
  Account.balance <$> accounts s !! id.

(** The columns of an account other than [balance]. *)
Definition same_but_balance (a a' : Account.t) : Prop :=
  Account.name a' = Account.name a /\
  Account.currency a' = Account.currency a /\
  Account.account_type a' = Account.account_type a /\
  Account.status a' = Account.status a /\
  Account.created_at a' = Account.created_at a.

(** The record the handler builds for a request. *)
Definition new_transaction (hex : string) (now : Z) (from_id to_id : string)
    (amount : Decimal.t) (c descr : string) : Transaction.t :=
  Transaction.mk (String.append "TXN-" (upper (substring 0 8 hex)))
    from_id to_id amount (upper c) descr "Completed" now.

(** The database with the [status] of every account [id] set to [g id]. *)
Definition restatus (g : string -> string) (s : db) : db :=
  mkdb (map_imap (fun id a => Some (Account.with_status a (g id))) (accounts s))
       (transactions s).

(** A balance is not negative. *)
Definition nonneg (d : Decimal.t) : Prop :=
  match d with
  | Decimal.Fin c _ => 0 <= c
  | Decimal.Inf neg => neg = false
  | Decimal.NaN _ => False
  end.

(** No account is overdrawn. *)
Definition all_nonneg (s : db) : Prop :=
  map_Forall (fun _ a => nonneg (Account.balance a)) (accounts s).

(** The text has ASCII characters only; on such text the byte strings and
    the case mappings here are those of Python. *)
Definition ascii_text (s : string) : Prop :=
  Forall (fun a => (N_of_ascii a < 128)%N) (list_ascii_of_string s).

(** The amount of a request is ASCII text and, when it converts, is not
    negative. *)
Definition amount_nonneg (data : Request.t) : Prop :=
  forall text, Request.amount data = Some text ->
    ascii_text text
    /\ forall d, Decimal.of_string text = Some d -> nonneg d.

(** A sequence of [POST /transactions] requests, each with its id and clock. *)
Definition run (reqs : list (string * Z * Request.t)) (s : db) : db :=
  fold_left (fun s r => (create_transaction r.1.1 r.1.2 r.2 s).2) reqs s.

(** A finite decimal fits the context as it is: at most [prec] digits and
    an exponent the context has. *)
Definition in_context (c e : Z) : Prop :=
  Z.abs c < 10 ^ Decimal.prec /\ Decimal.Etiny <= e <= Decimal.Etop.

(** ** The validation order of the specification, section 4.3

    This definition follows the words of the specification, not the code. *)

Module Spec.
Inductive error_kind : Type :=
| MissingField | SelfTransfer | InvalidAmount
| SourceNotFound | TargetNotFound | InsufficientFunds.

(** "a positive fixed-point decimal with at most 2 fractional digits" *)
Definition valid_amount (d : Decimal.t) : bool :=
  match d with
  | Decimal.Fin c e => (0 <? c) && (-2 <=? e)
  | _ => false
  end.

(** Steps 1 to 4, in the order written. *)
Definition first_failure (from_id to_id amount_text : string) (s : db)
    : option error_kind :=
  if String.eqb from_id "" || String.eqb to_id "" then Some MissingField
  else if String.eqb from_id to_id then Some SelfTransfer
  else
    match Decimal.of_string amount_text with
    | None => Some InvalidAmount
    | Some d =>
        if negb (valid_amount d) then Some InvalidAmount
        else
          match accounts s !! from_id with
          | None => Some SourceNotFound
          | Some src =>
              match accounts s !! to_id with
              | None => Some TargetNotFound
              | Some _ =>
                  match Decimal.lt (Account.balance src) d with
                  | Ok true => Some InsufficientFunds
                  | _ => None
                  end
              end
          end
    end.
End Spec.

(** The error kind a response of the handler stands for. *)
Definition kind_of_response (r : response) : option Spec.error_kind :=
  match r with
  | RespError msg code =>
      if String.eqb msg "Source account not found" then Some Spec.SourceNotFound
      else if String.eqb msg "Target account not found" then Some Spec.TargetNotFound
      else if String.eqb msg "Insufficient funds" then Some Spec.InsufficientFunds
      else Some Spec.MissingField
  | RespRaise InvalidOperation => Some Spec.InvalidAmount
  | _ => None
  end.

(** ** [get_account_balance] and [get_transaction] *)

(** [Model.query.get_or_404(key)]: the row, or the request aborted with 404. *)
Inductive or_404 (A : Type) : Type :=
| Found (a : A)
| Abort404.
Arguments Found {A} a.
Arguments Abort404 {A}.

Module BalanceInfo.
(** The body of [get_account_balance]; [F] is the type of Python's floats. *)
Record t (F : Type) : Type := mk {
  account_id : string;
  balance : F;
  currency : string;
  status : string
}.
Arguments mk {F} _ _ _ _.
Arguments account_id {F} _.
Arguments balance {F} _.
Arguments currency {F} _.
Arguments status {F} _.
End BalanceInfo.

(** [py_float] is Python's [float] on a Decimal. *)
Definition get_account_balance {F : Type} (py_float : Decimal.t -> F)
    (account_id : string) (s : db) : or_404 (BalanceInfo.t F) :=
  match accounts s !! account_id with
  | Some account =>
      Found (BalanceInfo.mk account_id (py_float (Account.balance account))
               (Account.currency account) (Account.status account))
  | None => Abort404
  end.

(** The row whose [to_dict()] is the body. *)
Definition get_transaction (transaction_id : string) (s : db)
    : or_404 Transaction.t :=
  match find (fun t => String.eqb (Transaction.id t) transaction_id)
          (transactions s) with
  | Some t => Found t
  | None => Abort404
  end.

(** ** [src/seed_data.py]

    [clock id] is the time at which the row [id] is inserted, the default of
    its [created_at].  Foreign keys are the storage engine's business. *)

Definition sample_accounts (clock : string -> Z) : list (string * Account.t) :=
  [ ("ACC-001-USD", Account.mk "Trading Account USD" "USD" "Trading" "Active"
                      (Decimal.Fin 100000000 (-2)) (clock "ACC-001-USD"));
    ("ACC-002-USD", Account.mk "Settlement Account USD" "USD" "Settlement" "Active"
                      (Decimal.Fin 50000000 (-2)) (clock "ACC-002-USD"));
    ("ACC-003-EUR", Account.mk "Trading Account EUR" "EUR" "Trading" "Active"
                      (Decimal.Fin 75000000 (-2)) (clock "ACC-003-EUR"));
    ("ACC-004-EUR", Account.mk "Settlement Account EUR" "EUR" "Settlement" "Active"
                      (Decimal.Fin 30000000 (-2)) (clock "ACC-004-EUR"));
    ("ACC-005-GBP", Account.mk "Trading Account GBP" "GBP" "Trading" "Active"
                      (Decimal.Fin 60000000 (-2)) (clock "ACC-005-GBP"));
    ("ACC-006-JPY", Account.mk "Trading Account JPY" "JPY" "Trading" "Active"
                      (Decimal.Fin 10000000000 (-2)) (clock "ACC-006-JPY")) ]%string.

Definition sample_transactions (clock : string -> Z) : list Transaction.t :=
  [ Transaction.mk "TXN-SAMPLE01" "ACC-001-USD" "ACC-002-USD"
      (Decimal.Fin 5000000 (-2)) "USD" "Initial settlement transfer" "Completed"
      (clock "TXN-SAMPLE01");
    Transaction.mk "TXN-SAMPLE02" "ACC-003-EUR" "ACC-004-EUR"
      (Decimal.Fin 2500000 (-2)) "EUR" "Daily settlement" "Completed"
      (clock "TXN-SAMPLE02") ]%string.

(** [if not Account.query.get(account.id): db.session.add(account)] *)
Definition add_account_if_absent (m : gmap string Account.t)
    (r : string * Account.t) : gmap string Account.t :=
  match m !! r.1 with
  | Some _ => m
  | None => <[r.1 := r.2]> m
  end.

(** [if not Transaction.query.get(transaction.id): db.session.add(transaction)] *)
Definition add_transaction_if_absent (log : list Transaction.t)
    (t : Transaction.t) : list Transaction.t :=
  if existsb (fun t' => String.eqb (Transaction.id t') (Transaction.id t)) log
  then log
  else log ++ [t].

Definition seed_accounts (clock : string -> Z) (s : db) : db :=
  mkdb (fold_left add_account_if_absent (sample_accounts clock) (accounts s))
       (transactions s).

Definition seed_transactions (clock : string -> Z) (s : db) : db :=
  mkdb (accounts s)
       (fold_left add_transaction_if_absent (sample_transactions clock)
          (transactions s)).

Definition seed_all (clock : string -> Z) (s : db) : db :=
  seed_transactions clock (seed_accounts clock s).

(** ** [mock_ai_response] of [src/chat.py] *)

(** [str.lower] on the ASCII letters. *)
Fixpoint lower (s : string) : string :=
  match s with
  | EmptyString => EmptyString
  | String a s' => String (Decimal.lower a) (lower s')
  end.

(** [needle in hay]. *)
Fixpoint contains (needle hay : string) : bool :=
  String.prefix needle hay
  || match hay with
     | EmptyString => false
     | String _ hay' => contains needle hay'
     end.

(** [str.split()]: the maximal runs of characters that are not whitespace;
    [w] is the run being read. *)
Fixpoint split_aux (w s : string) : list string :=
  match s with
  | EmptyString => match w with EmptyString => [] | _ => [w] end
  | String a s' =>
      if Decimal.is_space a then
        match w with
        | EmptyString => split_aux EmptyString s'
        | _ => w :: split_aux EmptyString s'
        end
      else split_aux (w +:+ String a EmptyString) s'
  end.

Definition split (s : string) : list string := split_aux EmptyString s.

(** What the function answers: a fixed text, or the text it renders from
    the outcome of one GET on the TRMS service. *)
Inductive reply : Type :=
| Say (text : string)
| FromAccounts (currency : string)     (* GET /accounts?currency=<currency> *)
| FromBalance (account_id : string)    (* GET /accounts/<account_id>/balance *)
| FromTransactions.                    (* GET /transactions *)

Definition dq : string := String (ascii_of_nat 34) EmptyString.

Definition ask_account_id_text : string :=
  "Please specify an account ID to check the balance. For example: 'Check balance for ACC-001-USD'".

Definition create_transaction_text : string :=
  "To create a transaction, I need the following information:
• Source account ID
• Target account ID
• Amount
• Currency
• Description (optional)

Please provide these details and I'll help you book the transaction.".

Definition help_text : string :=
  ("I'm your TRMS AI assistant! I can help you with:

🏦 **Account Management**
• View accounts by currency (e.g., "
   +:+ dq +:+ "Show me USD accounts"
   +:+ dq +:+ ")
• Check account balances (e.g., "
   +:+ dq +:+ "Check balance for ACC-001-USD"
   +:+ dq +:+ ")

💰 **Transactions**
• View recent transactions
• Help create new transactions

📊 **Reports & Information**
• Account summaries
• Transaction history

Just ask me in natural language! For example:
• "
   +:+ dq +:+ "Show me all EUR accounts"
   +:+ dq +:+ "
• "
   +:+ dq +:+ "What's the balance of ACC-001-USD?"
   +:+ dq +:+ "
• "
   +:+ dq +:+ "Show recent transactions"
   +:+ dq +:+ "
")%string.

Definition default_text : string :=
  "I'm your TRMS AI assistant. I can help you with account queries, balance checks, transactions, and reports. What would you like to know about your treasury system?".

Definition mock_ai_response (message : string) : reply :=
  let message_lower := lower message in
  if contains "account" message_lower
     && (contains "usd" message_lower || contains "eur" message_lower
         || contains "gbp" message_lower || contains "jpy" message_lower)
  then
    FromAccounts
      (if contains "usd" message_lower then "USD"
       else if contains "eur" message_lower then "EUR"
       else if contains "gbp" message_lower then "GBP"
       else "JPY")
  else if contains "balance" message_lower then
    match find (fun word => contains "ACC-" (upper word)) (split message) with
    | Some word => FromBalance (upper word)
    | None => Say ask_account_id_text
    end
  else if contains "transaction" message_lower
          || contains "transfer" message_lower then
    if contains "create" message_lower || contains "book" message_lower
       || contains "transfer" message_lower
    then Say create_transaction_text
    else FromTransactions
  else if contains "help" message_lower
          || contains "what can you do" message_lower then
    Say help_text
  else Say default_text.

(** ** Vocabulary of the further properties *)

(** The primary keys of the transaction log, in insertion order. *)
Definition transaction_ids (s : db) : list string :=
  Transaction.id <$> transactions s.

(** A digit of [uuid.uuid4().hex], and of its uppercased form. *)
Definition is_hex_lower (a : ascii) : bool :=
  let n := N_of_ascii a in
  (((48 <=? n) && (n <=? 57)) || ((97 <=? n) && (n <=? 102)))%N.

Definition is_hex_upper (a : ascii) : bool :=
  let n := N_of_ascii a in
  (((48 <=? n) && (n <=? 57)) || ((65 <=? n) && (n <=? 70)))%N.

(** The database with the [currency] of every account [id] set to [g id]. *)
Definition recurrency (g : string -> string) (s : db) : db :=
  mkdb (map_imap (fun id a =>
          Some (Account.mk (Account.name a) (g id) (Account.account_type a)
                  (Account.status a) (Account.balance a) (Account.created_at a)))
          (accounts s))
       (transactions s).

(** A string with every character mapped by [g]. *)
Fixpoint map_string (g : ascii -> ascii) (s : string) : string :=
  match s with
  | EmptyString => EmptyString
  | String a s' => String (g a) (map_string g s')
  end.

(** A string without whitespace. *)
Definition no_space (s : string) : Prop :=
  Forall (fun a => Decimal.is_space a = false) (list_ascii_of_string s).

(** ** Sample data *)

Module Scenario.
Definition acct (nm cur st : string) (cents : Z) : Account.t :=
  Account.mk nm cur "Trading" st (Decimal.Fin cents (-2)) 0.

(** [A1] holds 1000.00 USD, [A2] holds 500.00 USD. *)
Definition s0 : db :=
  mkdb (<["A1"%string := acct "First" "USD" "Active" 100000]>
        (<["A2"%string := acct "Second" "USD" "Active" 50000]> ∅)) [].

(** The same accounts, both inactive. *)
Definition s0_inactive : db :=
  mkdb (<["A1"%string := acct "First" "USD" "Inactive" 100000]>
        (<["A2"%string := acct "Second" "USD" "Closed" 50000]> ∅)) [].

Definition req (f t amt : string) : Request.t :=
  Request.mk (Some f) (Some t) (Some amt) (Some (JString "usd")) None.

Definition txn (i : string) (at_ : Z) : Transaction.t :=
  Transaction.mk i "A1" "A2" (Decimal.Fin 30000 (-2)) "USD" "" "Completed" at_.
End Scenario.

(** * Properties *)

Example scenario_first :
  let r := create_transaction "0a1b2c3d4e5f" 10 (Scenario.req "A1" "A2" "300.00") Scenario.s0 in
  r.1 = RespCreated (Transaction.mk "TXN-0A1B2C3D" "A1" "A2" (Decimal.Fin 30000 (-2)) "USD" "" "Completed" 10) 201
  /\ balance_of r.2 "A1" = Some (Decimal.Fin 70000 (-2))
  /\ balance_of r.2 "A2" = Some (Decimal.Fin 80000 (-2)).
Proof. vm_compute. auto. Qed.

(** ** Decimal arithmetic that needs no rounding *)

Section decimal_facts.
Import Decimal.

Lemma ndigits_fuel_pos fuel n : 1 <= ndigits_fuel fuel n.
Proof.
  revert n. induction fuel as [|f IH]; intros n; simpl; [lia|].
  destruct (n <? 10); [lia|]. specialize (IH (n / 10)). lia.
Qed.

Lemma ndigits_fuel_lower fuel n :
  0 < n -> n < 2 ^ (Z.of_nat fuel + 1) ->
  10 ^ (ndigits_fuel fuel n - 1) <= n.
Proof.
  revert n. induction fuel as [|f IH]; intros n Hpos Hlt.
  - simpl. lia.
  - cbn [ndigits_fuel]. destruct (Z.ltb_spec n 10) as [Hs|Hb].
    + simpl. lia.
    + assert (Hq : 0 < n / 10) by (apply Z.div_str_pos; lia).
      assert (Hq2 : n / 10 < 2 ^ (Z.of_nat f + 1)).
      { apply Z.div_lt_upper_bound; [lia|].
        replace (Z.of_nat (S f) + 1) with (Z.succ (Z.of_nat f + 1)) in Hlt by lia.
        rewrite Z.pow_succ_r in Hlt by lia. lia. }
      specialize (IH _ Hq Hq2).
      pose proof (ndigits_fuel_pos f (n / 10)) as Hd.
      replace (1 + ndigits_fuel f (n / 10) - 1)
        with (Z.succ (ndigits_fuel f (n / 10) - 1)) by lia.
      rewrite Z.pow_succ_r by lia.
      pose proof (Z.mul_div_le n 10 ltac:(lia)). lia.
Qed.

Lemma ndigits_le_prec c : Z.abs c < 10 ^ prec -> ndigits c <= prec.
Proof.
  intros Hc. unfold ndigits.
  destruct (Z.eq_dec (Z.abs c) 0) as [H0|H0].
  - rewrite H0. simpl. unfold prec. lia.
  - assert (Hpos : 0 < Z.abs c) by lia.
    pose proof (Z.log2_spec _ Hpos) as [_ Hl].
    pose proof (Z.log2_nonneg (Z.abs c)) as Hnn.
    assert (Hlow := ndigits_fuel_lower (Z.to_nat (Z.log2 (Z.abs c))) (Z.abs c) Hpos).
    rewrite Z2Nat.id in Hlow by lia.
    specialize (Hlow ltac:(replace (Z.log2 (Z.abs c) + 1) with (Z.succ (Z.log2 (Z.abs c))) by lia; exact Hl)).
    set (d := ndigits_fuel _ _) in *.
    destruct (Z.le_gt_cases d prec) as [|Hgt]; [done|].
    assert (10 ^ prec <= 10 ^ (d - 1)) by (apply Z.pow_le_mono_r; lia).
    lia.
Qed.

(** Inside the context [_fix] returns its argument. *)
Lemma fix_exact c e : in_context c e -> fix_ c e = Ok (Fin c e).
Proof.
  intros [Hc [He1 He2]]. unfold fix_.
  destruct (Z.eqb_spec c 0) as [->|Hne].
  - f_equal. f_equal. unfold Etiny, Etop, Emax, Emin, prec in *. lia.
  - pose proof (ndigits_le_prec c Hc) as Hd.
    destruct (Z.ltb_spec Etop (ndigits c + e - prec)); [lia|].
    destruct (Z.ltb_spec e (Z.max (ndigits c + e - prec) Etiny)); [lia|done].
Qed.

Lemma add_exact c1 e1 c2 e2 :
  let m := Z.min e1 e2 in
  in_context (c1 * 10 ^ (e1 - m) + c2 * 10 ^ (e2 - m)) m ->
  add (Fin c1 e1) (Fin c2 e2)
  = Ok (Fin (c1 * 10 ^ (e1 - m) + c2 * 10 ^ (e2 - m)) m).
Proof. intros m H. simpl. by apply fix_exact. Qed.

Lemma sub_exact c1 e1 c2 e2 :
  let m := Z.min e1 e2 in
  in_context (c1 * 10 ^ (e1 - m) - c2 * 10 ^ (e2 - m)) m ->
  sub (Fin c1 e1) (Fin c2 e2)
  = Ok (Fin (c1 * 10 ^ (e1 - m) - c2 * 10 ^ (e2 - m)) m).
Proof.
  intros m H. unfold sub. simpl. fold m.
  replace (c1 * 10 ^ (e1 - m) + - c2 * 10 ^ (e2 - m))
    with (c1 * 10 ^ (e1 - m) - c2 * 10 ^ (e2 - m)) by lia.
  by apply fix_exact.
Qed.

(** Balances at scale 2 and an amount of at most 2 fractional digits. *)
Lemma sub_cents b ca ea :
  -2 <= ea -> Z.abs (b - ca * 10 ^ (ea + 2)) < 10 ^ prec ->
  sub (Fin b (-2)) (Fin ca ea) = Ok (Fin (b - ca * 10 ^ (ea + 2)) (-2)).
Proof.
  intros He Hb.
  assert (Hs : -2 - Z.min (-2) ea = 0 /\ ea - Z.min (-2) ea = ea + 2) by lia.
  destruct Hs as [H0 H2].
  rewrite sub_exact; rewrite H0, H2, Z.pow_0_r, Z.mul_1_r, Z.min_l by lia.
  - done.
  - split; [done | unfold Etiny, Etop, Emax, Emin, prec; lia].
Qed.

Lemma add_cents b ca ea :
  -2 <= ea -> Z.abs (b + ca * 10 ^ (ea + 2)) < 10 ^ prec ->
  add (Fin b (-2)) (Fin ca ea) = Ok (Fin (b + ca * 10 ^ (ea + 2)) (-2)).
Proof.
  intros He Hb.
  assert (Hs : -2 - Z.min (-2) ea = 0 /\ ea - Z.min (-2) ea = ea + 2) by lia.
  destruct Hs as [H0 H2].
  rewrite add_exact; rewrite H0, H2, Z.pow_0_r, Z.mul_1_r, Z.min_l by lia.
  - done.
  - split; [done | unfold Etiny, Etop, Emax, Emin, prec; lia].
Qed.

Lemma lt_cents b ca ea :
  -2 <= ea ->
  lt (Fin b (-2)) (Fin ca ea) = Ok (b <? ca * 10 ^ (ea + 2)).
Proof.
  intros He. unfold lt, cmp.
  assert (Hs : -2 - Z.min (-2) ea = 0 /\ ea - Z.min (-2) ea = ea + 2) by lia.
  destruct Hs as [-> ->]. rewrite Z.pow_0_r, Z.mul_1_r.
  reflexivity.
Qed.
End decimal_facts.

(** ** How the handler runs *)

Lemma create_transaction_present hex now data s from_id to_id amount_text cur :
  Request.from_account data = Some from_id ->
  Request.to_account data = Some to_id ->
  Request.amount data = Some amount_text ->
  Request.currency data = Some cur ->
  create_transaction hex now data s =
    match accounts s !! from_id with
    | None => (RespError "Source account not found" 404, s)
    | Some from_account =>
        match accounts s !! to_id with
        | None => (RespError "Target account not found" 404, s)
        | Some _ =>
            match post hex now from_id to_id amount_text cur
                    (default EmptyString (Request.description data))
                    from_account s with
            | Ok r => r
            | Raise e => (RespRaise e, s)
            end
        end
    end.
Proof.
  destruct data as [f t a c d]. simpl. intros -> -> -> ->. reflexivity.
Qed.

(** The two ways [post] returns. *)
Lemma post_inv hex now from_id to_id amount_text cur descr src s resp s' :
  post hex now from_id to_id amount_text cur descr src s = Ok (resp, s') ->
  exists d,
    Decimal.of_string amount_text = Some d /\
    ((Decimal.lt (Account.balance src) d = Ok true /\
      resp = RespError "Insufficient funds" 400 /\ s' = s)
     \/
     (Decimal.lt (Account.balance src) d = Ok false /\
      exists c accounts1 accounts2,
        cur = JString c /\
        update_balance (fun b => Decimal.sub b d) from_id (accounts s) = Ok accounts1 /\
        update_balance (fun b => Decimal.add b d) to_id accounts1 = Ok accounts2 /\
        existsb (fun t => String.eqb (Transaction.id t)
                   (String.append "TXN-" (upper (substring 0 8 hex))))
          (transactions s) = false /\
        resp = RespCreated (new_transaction hex now from_id to_id d c descr) 201 /\
        s' = mkdb accounts2
               (transactions s ++ [new_transaction hex now from_id to_id d c descr]))).
Proof.
  unfold post. intros H.
  destruct (Decimal.of_string amount_text) as [d|]; [|discriminate].
  exists d. split; [done|]. simpl in H.
  destruct (Decimal.lt (Account.balance src) d) as [[|]|] eqn:Hlt; simpl in H;
    [left; by inversion H | | discriminate].
  right. split; [done|].
  destruct cur as [c|]; [|discriminate]. simpl in H.
  destruct (update_balance _ from_id _) as [accounts1|] eqn:H1; [|discriminate].
  simpl in H.
  destruct (update_balance _ to_id _) as [accounts2|] eqn:H2; [|discriminate].
  simpl in H.
  destruct (existsb _ _) eqn:Hex; [discriminate|].
  inversion H; subst. by exists c, accounts1, accounts2.
Qed.

(** Whatever the handler answers, it answers one of these ways. *)
Lemma create_transaction_cases hex now data s resp s' :
  create_transaction hex now data s = (resp, s') ->
  (s' = s /\ forall t code, resp <> RespCreated t code)
  \/
  (exists from_id to_id amount_text d c src tgt accounts1 accounts2,
     Request.from_account data = Some from_id /\
     Request.to_account data = Some to_id /\
     Request.amount data = Some amount_text /\
     Request.currency data = Some (JString c) /\
     accounts s !! from_id = Some src /\
     accounts s !! to_id = Some tgt /\
     Decimal.of_string amount_text = Some d /\
     Decimal.lt (Account.balance src) d = Ok false /\
     update_balance (fun b => Decimal.sub b d) from_id (accounts s) = Ok accounts1 /\
     update_balance (fun b => Decimal.add b d) to_id accounts1 = Ok accounts2 /\
     let t := new_transaction hex now from_id to_id d c
                (default EmptyString (Request.description data)) in
     existsb (fun t' => String.eqb (Transaction.id t') (Transaction.id t))
       (transactions s) = false /\
     resp = RespCreated t 201 /\
     s' = mkdb accounts2 (transactions s ++ [t])).
Proof.
  intros H.
  destruct (Request.from_account data) as [from_id|] eqn:Hf;
  [destruct (Request.to_account data) as [to_id|] eqn:Ht;
   [destruct (Request.amount data) as [amount_text|] eqn:Ha;
    [destruct (Request.currency data) as [cur|] eqn:Hc|]|]|].
  2-5: destruct data as [f0 t0 a0 c0 d0]; simpl in *; subst;
       inversion H; subst; left; split; [done | intros ? ? ?; discriminate].
  rewrite (create_transaction_present _ _ _ _ _ _ _ _ Hf Ht Ha Hc) in H.
  destruct (accounts s !! from_id) as [src|] eqn:Hsrc;
    [|inversion H; left; split; [done | intros ? ? ?; discriminate]].
  destruct (accounts s !! to_id) as [tgt|] eqn:Htgt;
    [|inversion H; left; split; [done | intros ? ? ?; discriminate]].
  destruct (post _ _ _ _ _ _ _ _ _) as [[r s1]|e] eqn:Hp;
    [|inversion H; left; split; [done | intros ? ? ?; discriminate]].
  inversion H; subst r s1. clear H.
  apply post_inv in Hp as (d & Hd & [(Hlt & -> & ->) | (Hlt & c & a1 & a2 & -> & H1 & H2 & Hex & -> & ->)]).
  - left. split; [done | intros ? ? ?; discriminate].
  - right. exists from_id, to_id, amount_text, d, c, src, tgt, a1, a2.
    repeat split; done.
Qed.

(** ** What [update_balance] touches *)

Lemma same_but_balance_refl a : same_but_balance a a.
Proof. by repeat split. Qed.

Lemma same_but_balance_trans a b c :
  same_but_balance a b -> same_but_balance b c -> same_but_balance a c.
Proof.
  intros (?&?&?&?&?) (?&?&?&?&?). repeat split; congruence.
Qed.

Lemma update_balance_Some f id m a b :
  m !! id = Some a -> f (Account.balance a) = Ok b ->
  update_balance f id m = Ok (<[id := Account.with_balance a b]> m).
Proof. intros Hm Hf. unfold update_balance. rewrite Hm. simpl. by rewrite Hf. Qed.

Lemma update_balance_frame f id (m m' : gmap string Account.t) :
  update_balance f id m = Ok m' ->
  forall j, option_Forall2 same_but_balance (m !! j) (m' !! j)
            /\ (j <> id -> m' !! j = m !! j).
Proof.
  unfold update_balance. intros H j.
  destruct (m !! id) as [a|] eqn:Hm.
  - simpl in H. destruct (f (Account.balance a)) as [b|]; [|discriminate].
    simpl in H. inversion H; subst m'. clear H.
    destruct (decide (j = id)) as [->|Hne].
    + rewrite lookup_insert_eq, Hm. split; [|done].
      constructor. by repeat split.
    + rewrite lookup_insert_ne by done. split; [|done].
      destruct (m !! j); constructor. apply same_but_balance_refl.
  - inversion H; subst m'. split; [|done].
    destruct (m !! j); constructor. apply same_but_balance_refl.
Qed.

Lemma option_same_but_balance_trans (x y z : option Account.t) :
  option_Forall2 same_but_balance x y -> option_Forall2 same_but_balance y z ->
  option_Forall2 same_but_balance x z.
Proof.
  intros Hxy Hyz. destruct Hxy; inversion Hyz; subst; constructor.
  eauto using same_but_balance_trans.
Qed.

(** ** C9: a transfer changes balances of its two accounts, nothing else *)

(** C9. Whatever the outcome of a transfer, the accounts table keeps its keys
    (each [id]), every account keeps its name, currency, account_type, status
    and created_at, and an account that is neither the source nor the target
    of the request is unchanged altogether. *)
Theorem transfer_changes_only_balances hex now data s (id : string) :
  let s' := (create_transaction hex now data s).2 in
  option_Forall2 same_but_balance (accounts s !! id) (accounts s' !! id)
  /\ (Request.from_account data <> Some id ->
      Request.to_account data <> Some id ->
      accounts s' !! id = accounts s !! id).
Proof.
  destruct (create_transaction hex now data s) as [resp s'] eqn:H. simpl.
  apply create_transaction_cases in H
    as [[-> _] | (from_id & to_id & at_ & d & c & src & tgt & a1 & a2 &
                  Hf & Ht & _ & _ & _ & _ & _ & _ & H1 & H2 & _ & _ & ->)].
  - split; [|done]. destruct (accounts s !! id); constructor.
    apply same_but_balance_refl.
  - simpl.
    destruct (update_balance_frame _ _ _ _ H1 id) as [R1 E1].
    destruct (update_balance_frame _ _ _ _ H2 id) as [R2 E2].
    split; [by eapply option_same_but_balance_trans|].
    intros Hnf Hnt. rewrite E2, E1; [done | |]; congruence.
Qed.

Lemma transfer_changes_only_balances_witness :
  accounts (create_transaction "0a1b2c3d4e5f" 10
              (Scenario.req "A1" "A1" "300.00") Scenario.s0).2 !! "A2"%string
  = accounts Scenario.s0 !! "A2"%string.
Proof.
  apply (transfer_changes_only_balances "0a1b2c3d4e5f" 10
           (Scenario.req "A1" "A1" "300.00") Scenario.s0 "A2");
    simpl; discriminate.
Defined.

(** ** C1: a transfer between two accounts moves the amount exactly *)

Lemma balance_of_Some s id b :
  balance_of s id = Some b ->
  exists a, accounts s !! id = Some a /\ Account.balance a = b.
Proof.
  unfold balance_of. destruct (accounts s !! id) as [a|]; [|discriminate].
  simpl. intros [= <-]. by exists a.
Qed.

(** C1 (amended). For every transfer that succeeds between two distinct
    accounts whose balances are held with two decimal places, for an amount
    of at most two fractional digits whose results stay within the 28 digits
    of the decimal context: the response is 201, the source balance is the
    old one minus the amount, the target balance the old one plus the amount,
    both exactly, and the sum of the two balances is what it was. *)
Theorem transfer_moves_amount_exactly hex now data s t code s' bf bt ca ea :
  create_transaction hex now data s = (RespCreated t code, s') ->
  Transaction.from_account t <> Transaction.to_account t ->
  balance_of s (Transaction.from_account t) = Some (Decimal.Fin bf (-2)) ->
  balance_of s (Transaction.to_account t) = Some (Decimal.Fin bt (-2)) ->
  Transaction.amount t = Decimal.Fin ca ea ->
  -2 <= ea ->
  Z.abs (bf - ca * 10 ^ (ea + 2)) < 10 ^ Decimal.prec ->
  Z.abs (bt + ca * 10 ^ (ea + 2)) < 10 ^ Decimal.prec ->
  code = 201
  /\ balance_of s' (Transaction.from_account t)
     = Some (Decimal.Fin (bf - ca * 10 ^ (ea + 2)) (-2))
  /\ balance_of s' (Transaction.to_account t)
     = Some (Decimal.Fin (bt + ca * 10 ^ (ea + 2)) (-2))
  /\ (bf - ca * 10 ^ (ea + 2)) + (bt + ca * 10 ^ (ea + 2)) = bf + bt.
Proof.
  intros H Hne Hbf Hbt Hamt Hea Hf Ht.
  apply create_transaction_cases in H
    as [[_ Hno] | (from_id & to_id & at_ & d & c & src & tgt & a1 & a2 &
                   _ & _ & _ & _ & Hsrc & Htgt & _ & _ & H1 & H2 & _ & Hr & ->)];
    [by destruct (Hno t code)|].
  injection Hr as -> ->. simpl in *. subst d.
  apply balance_of_Some in Hbf as (src' & Hs' & Hbs).
  apply balance_of_Some in Hbt as (tgt' & Ht' & Hbtg).
  rewrite Hsrc in Hs'. injection Hs' as <-.
  rewrite Htgt in Ht'. injection Ht' as <-.
  erewrite update_balance_Some in H1;
    [| exact Hsrc | rewrite Hbs; by apply sub_cents].
  injection H1 as <-.
  erewrite update_balance_Some in H2;
    [| rewrite lookup_insert_ne by done; exact Htgt
     | rewrite Hbtg; by apply add_cents].
  injection H2 as <-.
  unfold balance_of. simpl.
  rewrite lookup_insert_ne by congruence.
  rewrite !lookup_insert_eq. simpl. repeat split; lia.
Qed.

Lemma transfer_moves_amount_exactly_witness :
  201 = 201
  /\ balance_of (create_transaction "0a1b2c3d4e5f" 10
                   (Scenario.req "A1" "A2" "300.00") Scenario.s0).2 "A1"
     = Some (Decimal.Fin (100000 - 30000 * 10 ^ (-2 + 2)) (-2))
  /\ balance_of (create_transaction "0a1b2c3d4e5f" 10
                   (Scenario.req "A1" "A2" "300.00") Scenario.s0).2 "A2"
     = Some (Decimal.Fin (50000 + 30000 * 10 ^ (-2 + 2)) (-2))
  /\ (100000 - 30000 * 10 ^ (-2 + 2)) + (50000 + 30000 * 10 ^ (-2 + 2))
     = 100000 + 50000.
Proof.
  apply (transfer_moves_amount_exactly "0a1b2c3d4e5f" 10
           (Scenario.req "A1" "A2" "300.00") Scenario.s0
           (new_transaction "0a1b2c3d4e5f" 10 "A1" "A2"
              (Decimal.Fin 30000 (-2)) "usd" "")
           201 _ 100000 50000 30000 (-2));
    try (vm_compute; reflexivity); try (simpl; discriminate);
    try (vm_compute; lia).
Defined.

(** C1, counterexample.  The second transfer of the claim's "every transfer
    that succeeds": a transfer from [A1] to [A1] answers 201 and the balance
    of the source is 1000.00 as before, not 700.00; and a transfer of 1E-30
    from [A1] to [A2] answers 201 and leaves the source balance equal in
    value to what it was. *)
Lemma transfer_moves_amount_exactly_counterexample :
  ~ (forall hex now data s t code s' bf ca ea,
       create_transaction hex now data s = (RespCreated t code, s') ->
       balance_of s (Transaction.from_account t) = Some (Decimal.Fin bf (-2)) ->
       Transaction.amount t = Decimal.Fin ca ea ->
       -2 <= ea ->
       balance_of s' (Transaction.from_account t)
       = Some (Decimal.Fin (bf - ca * 10 ^ (ea + 2)) (-2)))
  /\ (exists t s',
        create_transaction "0a1b2c3d4e5f" 10
          (Scenario.req "A1" "A2" "1E-30") Scenario.s0 = (RespCreated t 201, s')
        /\ Transaction.amount t = Decimal.Fin 1 (-30)
        /\ exists b, balance_of s' "A1" = Some b
             /\ Decimal.cmp b (Decimal.Fin 100000 (-2)) = Eq).
Proof.
  split.
  - intros H.
    specialize (H "0a1b2c3d4e5f"%string 10
                  (Scenario.req "A1" "A1" "300.00") Scenario.s0
                  (new_transaction "0a1b2c3d4e5f" 10 "A1" "A1"
                     (Decimal.Fin 30000 (-2)) "usd" "")
                  201 _ 100000 30000 (-2)
                  ltac:(vm_compute; reflexivity) ltac:(vm_compute; reflexivity)
                  ltac:(reflexivity) ltac:(lia)).
    vm_compute in H. discriminate.
  - eexists _, _. split; [vm_compute; reflexivity|].
    split; [reflexivity|]. eexists. split; vm_compute; reflexivity.
Qed.

(** ** C2: a transfer from an account to itself *)

Lemma post_Ok hex now from_id to_id amount_text c descr src s d a1 a2 :
  Decimal.of_string amount_text = Some d ->
  Decimal.lt (Account.balance src) d = Ok false ->
  update_balance (fun b => Decimal.sub b d) from_id (accounts s) = Ok a1 ->
  update_balance (fun b => Decimal.add b d) to_id a1 = Ok a2 ->
  existsb (fun t => String.eqb (Transaction.id t)
             (String.append "TXN-" (upper (substring 0 8 hex))))
    (transactions s) = false ->
  post hex now from_id to_id amount_text (JString c) descr src s
  = Ok (RespCreated (new_transaction hex now from_id to_id d c descr) 201,
        mkdb a2 (transactions s ++ [new_transaction hex now from_id to_id d c descr])).
Proof.
  intros Hd Hlt H1 H2 Hex. unfold post.
  rewrite Hd. simpl. rewrite Hlt. simpl. rewrite H1. simpl. rewrite H2. simpl.
  by rewrite Hex.
Qed.

(** C2, counterexample.  The transfer of 300.00 from [A1] to [A1] is answered
    201 and its record is appended to the empty log. *)
Lemma self_transfer_counterexample :
  exists t s',
    create_transaction "0a1b2c3d4e5f" 10
      (Scenario.req "A1" "A1" "300.00") Scenario.s0 = (RespCreated t 201, s')
    /\ Transaction.from_account t = Transaction.to_account t
    /\ transactions Scenario.s0 = []
    /\ transactions s' = [t].
Proof. eexists _, _. repeat split; vm_compute; reflexivity. Qed.

(** C2 (amended).  A transfer whose source and target are the same existing
    account is not rejected.  When the currency field is a string of ASCII
    text, the balance of the account is a Numeric(15, 2) value (two decimal
    places, fewer than 15 digits), the amount text converts to a number that
    is not negative, has at most two fractional digits and is covered by
    the balance, and the generated id is new: the response is 201, one
    Transaction record with [from_account = to_account] is appended, and the
    accounts table is what it was, so no balance changes. *)
Theorem self_transfer_is_posted hex now data s id amount_text c src bf ca ea :
  Request.from_account data = Some id ->
  Request.to_account data = Some id ->
  Request.amount data = Some amount_text ->
  Request.currency data = Some (JString c) ->
  ascii_text c ->
  accounts s !! id = Some src ->
  Account.balance src = Decimal.Fin bf (-2) ->
  Decimal.of_string amount_text = Some (Decimal.Fin ca ea) ->
  -2 <= ea ->
  0 <= ca * 10 ^ (ea + 2) <= bf ->
  bf < 10 ^ 15 ->
  existsb (fun t => String.eqb (Transaction.id t)
             (String.append "TXN-" (upper (substring 0 8 hex))))
    (transactions s) = false ->
  let t := new_transaction hex now id id (Decimal.Fin ca ea) c
             (default EmptyString (Request.description data)) in
  create_transaction hex now data s
  = (RespCreated t 201, mkdb (accounts s) (transactions s ++ [t])).
Proof.
  intros Hf Ht Ha Hc _ Hsrc Hb Hd Hea Hle Hbf Hex t.
  assert (Hp : 10 ^ 15 < 10 ^ Decimal.prec) by (unfold Decimal.prec; lia).
  rewrite (create_transaction_present _ _ _ _ _ _ _ _ Hf Ht Ha Hc), Hsrc.
  erewrite post_Ok; [| exact Hd | | | | exact Hex].
  - reflexivity.
  - rewrite Hb, lt_cents by done. f_equal. lia.
  - apply update_balance_Some; [exact Hsrc|]. rewrite Hb.
    apply sub_cents; [done | lia].
  - assert (Hback : bf - ca * 10 ^ (ea + 2) + ca * 10 ^ (ea + 2) = bf) by lia.
    erewrite update_balance_Some;
      [| apply lookup_insert_eq
       | cbn [Account.balance Account.with_balance];
         rewrite add_cents by (rewrite ?Hback; lia);
         rewrite Hback; reflexivity].
    rewrite insert_insert_eq. f_equal. apply insert_id. rewrite Hsrc.
    f_equal. rewrite <- Hb. destruct src; reflexivity.
Qed.

Lemma self_transfer_is_posted_witness :
  create_transaction "0a1b2c3d4e5f" 10
    (Scenario.req "A1" "A1" "300.00") Scenario.s0
  = (RespCreated (new_transaction "0a1b2c3d4e5f" 10 "A1" "A1"
                    (Decimal.Fin 30000 (-2)) "usd" "") 201,
     mkdb (accounts Scenario.s0)
       (transactions Scenario.s0 ++
        [new_transaction "0a1b2c3d4e5f" 10 "A1" "A1"
           (Decimal.Fin 30000 (-2)) "usd" ""])).
Proof.
  apply (self_transfer_is_posted "0a1b2c3d4e5f" 10
           (Scenario.req "A1" "A1" "300.00") Scenario.s0 "A1" "300.00" "usd"
           (Scenario.acct "First" "USD" "Active" 100000) 100000 30000 (-2));
    try reflexivity; try (vm_compute; reflexivity); try lia.
  unfold ascii_text. simpl. repeat constructor.
Defined.

(** ** C3: what the handler does with the amount *)

Lemma update_balance_zero_sub id (m : gmap string Account.t) a b e :
  m !! id = Some a -> Account.balance a = Decimal.Fin b (-2) ->
  -2 <= e -> Z.abs b < 10 ^ Decimal.prec ->
  update_balance (fun x => Decimal.sub x (Decimal.Fin 0 e)) id m = Ok m.
Proof.
  intros Hm Hb He Hlt.
  erewrite update_balance_Some;
    [| exact Hm | rewrite Hb, sub_cents by (rewrite ?Z.mul_0_l, ?Z.sub_0_r; done);
                  rewrite Z.mul_0_l, Z.sub_0_r; reflexivity].
  f_equal. apply insert_id. rewrite Hm. f_equal. rewrite <- Hb. by destruct a.
Qed.

Lemma update_balance_zero_add id (m : gmap string Account.t) a b e :
  m !! id = Some a -> Account.balance a = Decimal.Fin b (-2) ->
  -2 <= e -> Z.abs b < 10 ^ Decimal.prec ->
  update_balance (fun x => Decimal.add x (Decimal.Fin 0 e)) id m = Ok m.
Proof.
  intros Hm Hb He Hlt.
  erewrite update_balance_Some;
    [| exact Hm | rewrite Hb, add_cents by (rewrite ?Z.mul_0_l, ?Z.add_0_r; done);
                  rewrite Z.mul_0_l, Z.add_0_r; reflexivity].
  f_equal. apply insert_id. rewrite Hm. f_equal. rewrite <- Hb. by destruct a.
Qed.

(** Posting between two distinct accounts when neither result is rounded. *)
Lemma create_transaction_posts hex now data s from_id to_id amount_text c
    src tgt bf ef bt et ca ea :
  Request.from_account data = Some from_id ->
  Request.to_account data = Some to_id ->
  Request.amount data = Some amount_text ->
  Request.currency data = Some (JString c) ->
  from_id <> to_id ->
  accounts s !! from_id = Some src ->
  accounts s !! to_id = Some tgt ->
  Account.balance src = Decimal.Fin bf ef ->
  Account.balance tgt = Decimal.Fin bt et ->
  Decimal.of_string amount_text = Some (Decimal.Fin ca ea) ->
  let m1 := Z.min ef ea in
  let m2 := Z.min et ea in
  let b1 := bf * 10 ^ (ef - m1) - ca * 10 ^ (ea - m1) in
  let b2 := bt * 10 ^ (et - m2) + ca * 10 ^ (ea - m2) in
  0 <= b1 -> in_context b1 m1 -> in_context b2 m2 ->
  existsb (fun t => String.eqb (Transaction.id t)
             (String.append "TXN-" (upper (substring 0 8 hex))))
    (transactions s) = false ->
  let t := new_transaction hex now from_id to_id (Decimal.Fin ca ea) c
             (default EmptyString (Request.description data)) in
  create_transaction hex now data s
  = (RespCreated t 201,
     mkdb (<[to_id := Account.with_balance tgt (Decimal.Fin b2 m2)]>
             (<[from_id := Account.with_balance src (Decimal.Fin b1 m1)]>
                (accounts s)))
          (transactions s ++ [t])).
Proof.
  intros Hf Ht Ha Hc Hne Hsrc Htgt Hbs Hbt Hd m1 m2 b1 b2 Hpos Hc1 Hc2 Hex t.
  rewrite (create_transaction_present _ _ _ _ _ _ _ _ Hf Ht Ha Hc), Hsrc, Htgt.
  erewrite post_Ok; [reflexivity | exact Hd | | | | exact Hex].
  - rewrite Hbs. unfold Decimal.lt, Decimal.cmp. fold m1. f_equal.
    destruct (Z.compare_spec (bf * 10 ^ (ef - m1)) (ca * 10 ^ (ea - m1)));
      [done | lia | done].
  - apply update_balance_Some; [exact Hsrc|]. rewrite Hbs.
    by apply sub_exact.
  - apply update_balance_Some; [by rewrite lookup_insert_ne|]. rewrite Hbt.
    by apply add_exact.
Qed.

(** C3, counterexample.  An amount of zero is answered 201 and recorded; an
    amount with three fractional digits is answered 201 as well. *)
Lemma invalid_amount_counterexample :
  (exists t s',
     create_transaction "0a1b2c3d4e5f" 10
       (Scenario.req "A1" "A2" "0.00") Scenario.s0 = (RespCreated t 201, s')
     /\ Transaction.amount t = Decimal.Fin 0 (-2)
     /\ transactions s' = transactions Scenario.s0 ++ [t])
  /\ (exists t s',
        create_transaction "0a1b2c3d4e5f" 10
          (Scenario.req "A1" "A2" "0.125") Scenario.s0 = (RespCreated t 201, s')).
Proof.
  split; eexists _, _; repeat split; vm_compute; reflexivity.
Qed.

(** C3 (amended).  With the required fields present and both accounts found:
    - an amount that is ASCII text which Decimal cannot convert makes the
      handler raise InvalidOperation with the database unchanged (there is
      no invalid-amount response);
    - there is no check of sign: when the currency field is a string of
      ASCII text, both balances are Numeric(15, 2) values that are not
      negative, and the generated id is new, an amount of zero with at most
      two fractional digits is answered 201, its record is appended and no
      balance changes;
    - there is no check of scale: under the same conditions on currency,
      balances and id, for two distinct accounts, a positive amount of more
      than two fractional digits that the source balance covers, with exact
      results within the 28 digits and the exponent range of the decimal
      context, is answered 201 too. *)
Theorem amount_is_converted_not_validated hex now data s from_id to_id
    amount_text cur src tgt :
  Request.from_account data = Some from_id ->
  Request.to_account data = Some to_id ->
  Request.amount data = Some amount_text ->
  Request.currency data = Some cur ->
  accounts s !! from_id = Some src ->
  accounts s !! to_id = Some tgt ->
  (ascii_text amount_text ->
   Decimal.of_string amount_text = None ->
   create_transaction hex now data s = (RespRaise InvalidOperation, s))
  /\ (forall e c bf bt,
        Decimal.of_string amount_text = Some (Decimal.Fin 0 e) -> -2 <= e ->
        cur = JString c -> ascii_text c ->
        Account.balance src = Decimal.Fin bf (-2) ->
        Account.balance tgt = Decimal.Fin bt (-2) ->
        0 <= bf < 10 ^ 15 -> 0 <= bt < 10 ^ 15 ->
        existsb (fun t => String.eqb (Transaction.id t)
                   (String.append "TXN-" (upper (substring 0 8 hex))))
          (transactions s) = false ->
        let t := new_transaction hex now from_id to_id (Decimal.Fin 0 e) c
                   (default EmptyString (Request.description data)) in
        create_transaction hex now data s
        = (RespCreated t 201, mkdb (accounts s) (transactions s ++ [t])))
  /\ (forall ca ea c bf bt,
        Decimal.of_string amount_text = Some (Decimal.Fin ca ea) ->
        ea < -2 -> 0 < ca -> from_id <> to_id ->
        cur = JString c -> ascii_text c ->
        Account.balance src = Decimal.Fin bf (-2) ->
        Account.balance tgt = Decimal.Fin bt (-2) ->
        0 <= bf < 10 ^ 15 -> 0 <= bt < 10 ^ 15 ->
        ca <= bf * 10 ^ (-2 - ea) ->
        in_context (bf * 10 ^ (-2 - ea) - ca) ea ->
        in_context (bt * 10 ^ (-2 - ea) + ca) ea ->
        existsb (fun t => String.eqb (Transaction.id t)
                   (String.append "TXN-" (upper (substring 0 8 hex))))
          (transactions s) = false ->
        exists t s',
          create_transaction hex now data s = (RespCreated t 201, s')).
Proof.
  intros Hf Ht Ha Hc Hsrc Htgt. split; [|split].
  - intros _ Hd.
    rewrite (create_transaction_present _ _ _ _ _ _ _ _ Hf Ht Ha Hc), Hsrc, Htgt.
    unfold post. by rewrite Hd.
  - intros e c bf bt Hd He -> _ Hbs Hbt Hbf Hbtb Hex t.
    assert (Hp : 10 ^ 15 < 10 ^ Decimal.prec) by (unfold Decimal.prec; lia).
    rewrite (create_transaction_present _ _ _ _ _ _ _ _ Hf Ht Ha Hc), Hsrc, Htgt.
    erewrite post_Ok; [reflexivity | exact Hd | | | | exact Hex].
    + rewrite Hbs, lt_cents by exact He. f_equal. lia.
    + eapply update_balance_zero_sub; [exact Hsrc | exact Hbs | exact He | lia].
    + eapply update_balance_zero_add; [exact Htgt | exact Hbt | exact He | lia].
  - intros ca ea c bf bt Hd Hea Hca Hne -> _ Hbs Hbt _ _ Hle Hc1 Hc2 Hex.
    assert (Hm : Z.min (-2) ea = ea) by lia.
    assert (He0 : ea - ea = 0) by lia.
    eexists _, _.
    eapply (create_transaction_posts hex now data s from_id to_id amount_text c
              src tgt bf (-2) bt (-2) ca ea);
      first [eassumption
            | rewrite ?Hm, ?He0, ?Z.pow_0_r, ?Z.mul_1_r; first [eassumption | lia]].
Qed.

Lemma amount_is_converted_not_validated_witness :
  create_transaction "0a1b2c3d4e5f" 10 (Scenario.req "A1" "A2" "0.00") Scenario.s0
  = (RespCreated (new_transaction "0a1b2c3d4e5f" 10 "A1" "A2"
                    (Decimal.Fin 0 (-2)) "usd" "") 201,
     mkdb (accounts Scenario.s0)
       (transactions Scenario.s0 ++
        [new_transaction "0a1b2c3d4e5f" 10 "A1" "A2" (Decimal.Fin 0 (-2)) "usd" ""])).
Proof.
  refine (proj1 (proj2 (amount_is_converted_not_validated "0a1b2c3d4e5f" 10
           (Scenario.req "A1" "A2" "0.00") Scenario.s0 "A1" "A2" "0.00"
           (JString "usd")
           (Scenario.acct "First" "USD" "Active" 100000)
           (Scenario.acct "Second" "USD" "Active" 50000)
           _ _ _ _ _ _)) (-2) "usd"%string 100000 50000 _ _ _ _ _ _ _ _ _);
    try reflexivity; try (vm_compute; reflexivity); try lia.
  unfold ascii_text. simpl. repeat constructor.
Defined.

(** ** C4: balances and negative amounts *)

(** C4, at the failing input.  In [Scenario.s0] no balance is negative; the
    request to move -600.00 from [A1] to [A2] passes the funds check
    (1000.00 is not below -600.00), is answered 201, and leaves [A2] with
    500.00 + (-600.00) = -100.00. *)
Theorem negative_amount_overdraws_target :
  Forall (fun r => nonneg (Account.balance r.2)) (map_to_list (accounts Scenario.s0))
  /\ exists t s',
       create_transaction "0a1b2c3d4e5f" 10
         (Scenario.req "A1" "A2" "-600.00") Scenario.s0 = (RespCreated t 201, s')
       /\ balance_of s' "A1" = Some (Decimal.Fin 160000 (-2))
       /\ balance_of s' "A2" = Some (Decimal.Fin (-10000) (-2))
       /\ ~ nonneg (Decimal.Fin (-10000) (-2)).
Proof.
  split.
  - vm_compute. repeat constructor; discriminate.
  - eexists _, _. repeat split; try (vm_compute; reflexivity).
    simpl. lia.
Qed.

(** The overdraft needs a negative amount: requests whose amounts are ASCII
    text and not negative keep every balance non-negative, one request or
    many. *)

Lemma fix_nonneg c e d : 0 <= c -> Decimal.fix_ c e = Ok d -> nonneg d.
Proof.
  intros Hc. unfold Decimal.fix_.
  destruct (Z.eqb_spec c 0) as [->|Hne]; [by intros [= <-]|].
  destruct (_ <? _); [done|].
  destruct (_ <? _); [|by intros [= <-]].
  set (k := Z.max _ _ - e).
  assert (Hr : 0 <= Decimal.round_half_even (Z.abs c) k).
  { unfold Decimal.round_half_even.
    assert (0 <= Z.abs c / 10 ^ k).
    { destruct (Z.eq_dec (10 ^ k) 0) as [->|Hp]; [by rewrite Z.div_0_r|].
      apply Z.div_pos; [lia|]. pose proof (Z.pow_nonneg 10 k). lia. }
    destruct (_ || _); lia. }
  destruct (_ <? _).
  - destruct (_ <? _); [done|]. intros [= <-]. simpl.
    assert (0 <= Decimal.round_half_even (Z.abs c) k / 10)
      by (apply Z.div_pos; lia).
    rewrite Z.sgn_pos by lia. lia.
  - destruct (_ <? _); [done|]. intros [= <-]. simpl.
    rewrite Z.sgn_pos by lia. lia.
Qed.

Lemma add_nonneg a b d :
  nonneg a -> nonneg b -> Decimal.add a b = Ok d -> nonneg d.
Proof.
  destruct a as [c1 e1|[]|[]], b as [c2 e2|[]|[]]; simpl; try done;
    try (by intros _ _ [= <-]).
  intros H1 H2. apply fix_nonneg.
  pose proof (Z.pow_nonneg 10 (e1 - Z.min e1 e2)).
  pose proof (Z.pow_nonneg 10 (e2 - Z.min e1 e2)). nia.
Qed.

Lemma sub_nonneg a b d :
  nonneg a -> nonneg b -> Decimal.lt a b = Ok false ->
  Decimal.sub a b = Ok d -> nonneg d.
Proof.
  destruct a as [c1 e1|[]|[]], b as [c2 e2|[]|[]]; unfold Decimal.sub; simpl;
    try done; try (by intros _ _ _ [= <-]).
  intros _ _ Hlt. apply fix_nonneg.
  destruct (Z.compare_spec (c1 * 10 ^ (e1 - Z.min e1 e2))
              (c2 * 10 ^ (e2 - Z.min e1 e2))); try done; lia.
Qed.

Lemma update_balance_nonneg f id (m m' : gmap string Account.t) :
  (forall b b', nonneg b -> f b = Ok b' -> nonneg b') ->
  map_Forall (fun _ a => nonneg (Account.balance a)) m ->
  update_balance f id m = Ok m' ->
  map_Forall (fun _ a => nonneg (Account.balance a)) m'.
Proof.
  intros Hf Hm. unfold update_balance.
  destruct (m !! id) as [a|] eqn:Ha; [|by intros [= <-]].
  destruct (f (Account.balance a)) as [b|] eqn:Hb; [|done].
  intros [= <-]. apply map_Forall_insert_2; [|done].
  simpl. eapply Hf; [|exact Hb]. by apply (Hm id a).
Qed.

Lemma nonneg_amount_keeps_balances_nonneg hex now data s :
  all_nonneg s -> amount_nonneg data ->
  all_nonneg (create_transaction hex now data s).2.
Proof.
  intros Hs Hamt.
  destruct (create_transaction hex now data s) as [resp s'] eqn:H. simpl.
  apply create_transaction_cases in H
    as [[-> _] | (from_id & to_id & at_ & d & c & src & tgt & a1 & a2 &
                  _ & _ & Ha & _ & Hsrc & _ & Hd & Hlt & H1 & H2 & _ & _ & ->)];
    [done|].
  pose proof (proj2 (Hamt _ Ha) _ Hd) as Hdn.
  unfold all_nonneg. simpl.
  eapply update_balance_nonneg; [| |exact H2].
  - intros b b' Hb. by apply add_nonneg.
  - unfold update_balance in H1. rewrite Hsrc in H1.
    destruct (Decimal.sub (Account.balance src) d) as [b1|] eqn:Hsub; [|done].
    injection H1 as <-. apply map_Forall_insert_2; [|done].
    simpl. eapply sub_nonneg; [| exact Hdn | exact Hlt | exact Hsub].
    by apply (Hs from_id src).
Qed.

Lemma run_keeps_balances_nonneg reqs s :
  all_nonneg s -> Forall (fun r => amount_nonneg r.2) reqs ->
  all_nonneg (run reqs s).
Proof.
  unfold run. intros Hs Hall. revert s Hs.
  induction Hall as [|r reqs Hr _ IH]; intros s Hs; simpl; [done|].
  apply IH. by apply nonneg_amount_keeps_balances_nonneg.
Qed.

(** ** C5: the funds check *)

Lemma cmp_below_power_of_ten E :
  4 <= E -> Decimal.cmp (Decimal.Fin 100000 (-2)) (Decimal.Fin 1 E) = Lt.
Proof.
  intros HE. unfold Decimal.cmp.
  assert (Hs : -2 - Z.min (-2) E = 0 /\ E - Z.min (-2) E = E + 2) by lia.
  destruct Hs as [-> ->]. rewrite Z.pow_0_r, Z.mul_1_r, Z.mul_1_l.
  apply Z.compare_lt_iff.
  assert (10 ^ 6 <= 10 ^ (E + 2)) by (apply Z.pow_le_mono_r; lia).
  assert (10 ^ 6 = 1000000) by reflexivity. lia.
Qed.

(** C5, counterexample.  The amount text 1e1000000000000000000 reads as the
    number 1 with exponent 10^18, far above the balance 1000.00 of [A1];
    Decimal refuses the exponent, so the handler raises InvalidOperation
    where the claim has the "Insufficient funds" response. *)
Lemma insufficient_funds_counterexample :
  Decimal.parse_number (list_ascii_of_string "1e1000000000000000000")
  = Some (1, 1000000000000000000)
  /\ Decimal.cmp (Decimal.Fin 100000 (-2)) (Decimal.Fin 1 1000000000000000000)
     = Lt
  /\ create_transaction "0a1b2c3d4e5f" 10
       (Scenario.req "A1" "A2" "1e1000000000000000000") Scenario.s0
     = (RespRaise InvalidOperation, Scenario.s0).
Proof.
  split; [vm_compute; reflexivity|]. split.
  - apply cmp_below_power_of_ten. lia.
  - vm_compute. reflexivity.
Qed.

(** C5 (amended).  With the required fields present, both accounts found and
    the amount text converted by Decimal to [d]: when the balance of the
    source is below [d] the response is 400 "Insufficient funds" and the
    database is unchanged (no record appended, no balance changed); when it
    is not below [d] (equal or above) the response is not "Insufficient
    funds".  A text that Decimal does not convert is answered by the
    exception of the conversion, whatever number it reads as. *)
Theorem insufficient_funds_rejected hex now data s from_id to_id amount_text
    cur src tgt d :
  Request.from_account data = Some from_id ->
  Request.to_account data = Some to_id ->
  Request.amount data = Some amount_text ->
  Request.currency data = Some cur ->
  accounts s !! from_id = Some src ->
  accounts s !! to_id = Some tgt ->
  Decimal.of_string amount_text = Some d ->
  (Decimal.lt (Account.balance src) d = Ok true ->
   create_transaction hex now data s = (RespError "Insufficient funds" 400, s))
  /\ (Decimal.lt (Account.balance src) d = Ok false ->
      (create_transaction hex now data s).1 <> RespError "Insufficient funds" 400).
Proof.
  intros Hf Ht Ha Hc Hsrc Htgt Hd.
  rewrite (create_transaction_present _ _ _ _ _ _ _ _ Hf Ht Ha Hc), Hsrc, Htgt.
  split; intros Hlt.
  - unfold post. rewrite Hd. simpl. by rewrite Hlt.
  - destruct (post _ _ _ _ _ _ _ _ _) as [[r s1]|e] eqn:Hp; [|discriminate].
    apply post_inv in Hp as (d' & Hd' & [(Hlt' & _) | (_ & c & a1 & a2 & _ & _ & _ & _ & -> & _)]).
    + congruence.
    + discriminate.
Qed.

Lemma insufficient_funds_rejected_witness :
  create_transaction "0a1b2c3d4e5f" 10
    (Scenario.req "A1" "A2" "1000.01") Scenario.s0
  = (RespError "Insufficient funds" 400, Scenario.s0)
  /\ (create_transaction "0a1b2c3d4e5f" 10
        (Scenario.req "A1" "A2" "1000.00") Scenario.s0).1
     <> RespError "Insufficient funds" 400.
Proof.
  split.
  - refine (proj1 (insufficient_funds_rejected "0a1b2c3d4e5f" 10
              (Scenario.req "A1" "A2" "1000.01") Scenario.s0 "A1" "A2" "1000.01"
              (JString "usd")
              (Scenario.acct "First" "USD" "Active" 100000)
              (Scenario.acct "Second" "USD" "Active" 50000)
              (Decimal.Fin 100001 (-2)) _ _ _ _ _ _ _) _);
      vm_compute; reflexivity.
  - refine (proj2 (insufficient_funds_rejected "0a1b2c3d4e5f" 10
              (Scenario.req "A1" "A2" "1000.00") Scenario.s0 "A1" "A2" "1000.00"
              (JString "usd")
              (Scenario.acct "First" "USD" "Active" 100000)
              (Scenario.acct "Second" "USD" "Active" 50000)
              (Decimal.Fin 100000 (-2)) _ _ _ _ _ _ _) _);
      vm_compute; reflexivity.
Defined.

(** ** C6: the order of the checks, and no effect on an error *)

(** C6, counterexample.  For a source id that names no account and an amount
    text that is not a number, the order of the specification reports the
    amount (step 2 precedes step 3); the handler answers 404 "Source account
    not found". *)
Lemma validation_order_counterexample :
  ~ (forall hex now from_id to_id amount_text s,
       kind_of_response
         (create_transaction hex now (Scenario.req from_id to_id amount_text) s).1
       = Spec.first_failure from_id to_id amount_text s)
  /\ Spec.first_failure "NOPE" "A2" "abc" Scenario.s0 = Some Spec.InvalidAmount
  /\ create_transaction "0a1b2c3d4e5f" 10
       (Scenario.req "NOPE" "A2" "abc") Scenario.s0
     = (RespError "Source account not found" 404, Scenario.s0).
Proof.
  split; [|split; vm_compute; reflexivity].
  intros H.
  specialize (H "0a1b2c3d4e5f"%string 10 "NOPE"%string "A2"%string
                "abc"%string Scenario.s0).
  vm_compute in H. discriminate.
Qed.

(** C6 (amended).  The handler checks, in this order: the four required
    fields are present, in the order from_account, to_account, amount,
    currency (400 naming the first absent one); the source account exists
    (404); the target account exists (404); the amount text converts to a
    Decimal (for an amount that is ASCII text which Decimal cannot convert,
    InvalidOperation is raised); the source balance is not below the
    converted amount (400 "Insufficient funds").  Each check answers in its
    own way once the earlier ones have passed, and every response other than
    the 201 leaves the database as it was. *)
Theorem validation_order_and_no_partial_effect hex now data s :
  let r := create_transaction hex now data s in
  (Request.from_account data = None ->
   r = (RespError "Missing required field: from_account" 400, s))
  /\ (forall f, Request.from_account data = Some f ->
        Request.to_account data = None ->
        r = (RespError "Missing required field: to_account" 400, s))
  /\ (forall f t, Request.from_account data = Some f ->
        Request.to_account data = Some t ->
        Request.amount data = None ->
        r = (RespError "Missing required field: amount" 400, s))
  /\ (forall f t a, Request.from_account data = Some f ->
        Request.to_account data = Some t ->
        Request.amount data = Some a ->
        Request.currency data = None ->
        r = (RespError "Missing required field: currency" 400, s))
  /\ (forall f t a c, Request.from_account data = Some f ->
        Request.to_account data = Some t ->
        Request.amount data = Some a ->
        Request.currency data = Some c ->
        (accounts s !! f = None ->
         r = (RespError "Source account not found" 404, s))
        /\ (forall src, accounts s !! f = Some src ->
              (accounts s !! t = None ->
               r = (RespError "Target account not found" 404, s))
              /\ (forall tgt, accounts s !! t = Some tgt ->
                    (ascii_text a -> Decimal.of_string a = None ->
                     r = (RespRaise InvalidOperation, s))
                    /\ (forall d, Decimal.of_string a = Some d ->
                          Decimal.lt (Account.balance src) d = Ok true ->
                          r = (RespError "Insufficient funds" 400, s)))))
  /\ ((forall t code, r.1 <> RespCreated t code) -> r.2 = s).
Proof.
  intros r. subst r. repeat apply conj.
  - intros Hf. destruct data as [f0 t0 a0 c0 d0]; simpl in *; by subst.
  - intros f Hf Ht. destruct data as [f0 t0 a0 c0 d0]; simpl in *; by subst.
  - intros f t Hf Ht Ha. destruct data as [f0 t0 a0 c0 d0]; simpl in *; by subst.
  - intros f t a Hf Ht Ha Hc.
    destruct data as [f0 t0 a0 c0 d0]; simpl in *; by subst.
  - intros f t a c Hf Ht Ha Hc.
    rewrite (create_transaction_present _ _ _ _ _ _ _ _ Hf Ht Ha Hc).
    split; [by intros -> |]. intros src ->.
    split; [by intros -> |]. intros tgt ->.
    split.
    + intros _ Hd. unfold post. by rewrite Hd.
    + intros d Hd Hlt. unfold post. rewrite Hd. simpl. by rewrite Hlt.
  - intros Hno.
    destruct (create_transaction hex now data s) as [resp s'] eqn:H.
    apply create_transaction_cases in H
      as [[-> _] | (? & ? & ? & ? & ? & ? & ? & ? & ? & H)]; [done|].
    destruct H as (_ & _ & _ & _ & _ & _ & _ & _ & _ & _ & _ & -> & _).
    by destruct (Hno _ _ eq_refl).
Qed.

Lemma validation_order_and_no_partial_effect_witness :
  create_transaction "0a1b2c3d4e5f" 10
    (Scenario.req "NOPE" "A2" "abc") Scenario.s0
  = (RespError "Source account not found" 404, Scenario.s0)
  /\ (create_transaction "0a1b2c3d4e5f" 10
        (Scenario.req "A1" "A2" "abc") Scenario.s0).2 = Scenario.s0.
Proof.
  pose proof (validation_order_and_no_partial_effect "0a1b2c3d4e5f" 10
                (Scenario.req "NOPE" "A2" "abc") Scenario.s0) as H1.
  pose proof (validation_order_and_no_partial_effect "0a1b2c3d4e5f" 10
                (Scenario.req "A1" "A2" "abc") Scenario.s0) as H2.
  split.
  - refine (proj1 (proj1 (proj2 (proj2 (proj2 (proj2 H1))))
                     "NOPE"%string "A2"%string "abc"%string (JString "usd")
                     _ _ _ _) _); reflexivity.
  - refine (proj2 (proj2 (proj2 (proj2 (proj2 H2)))) _).
    intros t code. vm_compute. discriminate.
Defined.

(** ** C7: listing accounts by currency *)

Lemma get_accounts_nonempty_filter c s :
  c <> EmptyString ->
  get_accounts (Some c) s
  = filter (fun r => Account.currency r.2 = upper c) (map_to_list (accounts s)).
Proof.
  intros Hc. unfold get_accounts.
  destruct (String.eqb_spec c ""); [done | reflexivity].
Qed.

(** C7, counterexample.  With the filter present and empty the listing holds
    the account [A1], whose currency USD is not the uppercased filter. *)
Lemma get_accounts_counterexample :
  ~ (forall c s id a,
       (id, a) ∈ get_accounts (Some c) s
       <-> accounts s !! id = Some a /\ Account.currency a = upper c)
  /\ ("A1"%string, Scenario.acct "First" "USD" "Active" 100000)
       ∈ get_accounts (Some EmptyString) Scenario.s0
  /\ Account.currency (Scenario.acct "First" "USD" "Active" 100000)
     <> upper EmptyString.
Proof.
  assert (Hin : ("A1"%string, Scenario.acct "First" "USD" "Active" 100000)
                  ∈ get_accounts (Some EmptyString) Scenario.s0).
  { simpl. apply elem_of_map_to_list. reflexivity. }
  split; [|split; [exact Hin | discriminate]].
  intros H. apply H in Hin as [_ Hcur]. discriminate.
Qed.

(** C7 (amended).  A filter that is present, not empty and ASCII text is
    uppercased and compared exactly: the listing holds, once each, exactly
    the accounts whose stored currency equals the uppercased filter, so two
    such filters that differ only in case give the same listing; with no
    filter, or an empty one, all accounts are listed. *)
Theorem get_accounts_filters_by_upper_currency (currency : option string) s :
  (forall c, currency = Some c -> c <> EmptyString -> ascii_text c ->
     forall id a,
       (id, a) ∈ get_accounts currency s
       <-> accounts s !! id = Some a /\ Account.currency a = upper c)
  /\ (forall c c', currency = Some c -> c <> EmptyString -> c' <> EmptyString ->
        ascii_text c -> ascii_text c' ->
        upper c' = upper c ->
        get_accounts (Some c') s = get_accounts currency s)
  /\ (currency = None \/ currency = Some EmptyString ->
      forall id a,
        (id, a) ∈ get_accounts currency s <-> accounts s !! id = Some a)
  /\ NoDup (get_accounts currency s).
Proof.
  repeat apply conj.
  - intros c -> Hc _ id a. rewrite get_accounts_nonempty_filter by done.
    rewrite list_elem_of_filter, elem_of_map_to_list. simpl. tauto.
  - intros c c' -> Hc Hc' _ _ Hup.
    rewrite !get_accounts_nonempty_filter by done. by rewrite Hup.
  - intros [-> | ->] id a; simpl; apply elem_of_map_to_list.
  - unfold get_accounts. destruct currency as [c|]; [destruct (negb _)|];
      try apply NoDup_filter; apply NoDup_map_to_list.
Qed.

Lemma get_accounts_filters_by_upper_currency_witness :
  ("A1"%string, Scenario.acct "First" "USD" "Active" 100000)
    ∈ get_accounts (Some "usd"%string) Scenario.s0.
Proof.
  assert (Hascii : ascii_text "usd").
  { unfold ascii_text. simpl. repeat constructor. }
  apply (proj1 (get_accounts_filters_by_upper_currency
                  (Some "usd"%string) Scenario.s0) "usd"%string
           eq_refl ltac:(discriminate) Hascii "A1"%string
           (Scenario.acct "First" "USD" "Active" 100000)).
  split; reflexivity.
Defined.

(** ** C8: listing transactions, newest first *)

#[local] Instance newer_first_trans : Transitive newer_first.
Proof. unfold newer_first. intros a b c ? ?. lia. Qed.

Lemma insert_newer_first_perm t l : insert_newer_first t l ≡ₚ t :: l.
Proof.
  induction l as [|x l IH]; simpl; [done|].
  destruct (_ <? _); [done|]. rewrite IH. apply Permutation_swap.
Qed.

Lemma insert_newer_first_sorted t l :
  Sorted newer_first l -> Sorted newer_first (insert_newer_first t l).
Proof.
  induction l as [|x l IH]; intros Hs; simpl.
  - by repeat constructor.
  - destruct (Z.ltb_spec (Transaction.created_at x) (Transaction.created_at t)).
    + constructor; [done|]. constructor. unfold newer_first. lia.
    + apply Sorted_inv in Hs as [Hs Hhd]. constructor; [by apply IH|].
      destruct l as [|y l]; simpl.
      * constructor. unfold newer_first. lia.
      * destruct (Z.ltb_spec (Transaction.created_at y) (Transaction.created_at t));
          constructor; [unfold newer_first; lia | by inversion Hhd].
Qed.

Lemma fold_insert_newer_first log acc :
  Sorted newer_first acc ->
  let out := fold_left (fun acc t => insert_newer_first t acc) log acc in
  out ≡ₚ log ++ acc /\ Sorted newer_first out.
Proof.
  revert acc. induction log as [|t log IH]; intros acc Hs; simpl; [done|].
  destruct (IH (insert_newer_first t acc) (insert_newer_first_sorted _ _ Hs))
    as [Hp Hso].
  split; [|done]. rewrite Hp, insert_newer_first_perm.
  by rewrite Permutation_middle.
Qed.

(** The query has a result: the listing computed by [get_transactions]. *)
Lemma get_transactions_is_returned s :
  get_transactions_returns s (get_transactions s).
Proof.
  destruct (fold_insert_newer_first (transactions s) [] ltac:(constructor))
    as [Hp Hs].
  split; [|done]. unfold get_transactions. by rewrite Hp, app_nil_r.
Qed.






(** ** C10: the status of an account plays no part in a transfer *)

Lemma restatus_lookup g s id :
  accounts (restatus g s) !! id
  = (fun a => Account.with_status a (g id)) <$> accounts s !! id.
Proof.
  unfold restatus. simpl. rewrite map_lookup_imap.
  by destruct (accounts s !! id).
Qed.

Lemma update_balance_restatus g f id (m : gmap string Account.t) :
  update_balance f id
    (map_imap (fun id a => Some (Account.with_status a (g id))) m)
  = match update_balance f id m with
    | Ok m' => Ok (map_imap (fun id a => Some (Account.with_status a (g id))) m')
    | Raise e => Raise e
    end.
Proof.
  unfold update_balance. rewrite map_lookup_imap.
  destruct (m !! id) as [a|]; simpl; [|done].
  destruct (f (Account.balance a)) as [b|]; simpl; [|done].
  f_equal. symmetry. by apply map_imap_insert_Some.
Qed.

Lemma post_restatus g st hex now from_id to_id amount_text cur descr src s :
  post hex now from_id to_id amount_text cur descr
    (Account.with_status src st) (restatus g s)
  = match post hex now from_id to_id amount_text cur descr src s with
    | Ok (r, s') => Ok (r, restatus g s')
    | Raise e => Raise e
    end.
Proof.
  unfold post.
  destruct (Decimal.of_string amount_text) as [d|]; simpl; [|done].
  destruct (Decimal.lt (Account.balance src) d) as [[|]|]; simpl; [done| |done].
  destruct cur as [c|]; simpl; [|done].
  rewrite update_balance_restatus.
  destruct (update_balance _ from_id (accounts s)) as [a1|]; simpl; [|done].
  rewrite update_balance_restatus.
  destruct (update_balance _ to_id a1) as [a2|]; simpl; [|done].
  by destruct (existsb _ _).
Qed.

Lemma create_transaction_restatus (g : string -> string) hex now data s :
  create_transaction hex now data (restatus g s)
  = ((create_transaction hex now data s).1,
     restatus g (create_transaction hex now data s).2).
Proof.
  unfold create_transaction.
  destruct (find _ required_fields); [done|].
  destruct (Request.from_account data) as [from_id|]; [|done].
  destruct (Request.to_account data) as [to_id|]; [|done].
  destruct (Request.amount data) as [amount_text|]; [|done].
  destruct (Request.currency data) as [cur|]; [|done].
  rewrite !restatus_lookup.
  destruct (accounts s !! from_id) as [src|]; simpl; [|done].
  destruct (accounts s !! to_id) as [tgt|]; simpl; [|done].
  rewrite post_restatus.
  by destruct (post _ _ _ _ _ _ _ _ _) as [[r s']|e].
Qed.

(** C10.  The handler does not read [status].  Let the status of every
    account be replaced at will (Inactive, or any other text).  Then the
    handler gives the response it gives on the original database, and its
    resulting database is the original result with the statuses replaced
    likewise.  And a request whose other checks pass succeeds whatever the
    statuses are: with the four fields present, the currency an ASCII string,
    source and target two distinct existing accounts whose balances are held
    with two decimal places, an amount of at most two fractional digits that
    is not negative and that the source balance covers, all within the
    range of the balance column, and a new transaction id, the response is
    201 with the new record, the record is appended, the source holds its
    balance minus the amount, the target its balance plus the amount, and
    both keep the status they had. *)
Theorem transfer_ignores_status (g : string -> string) hex now data s :
  create_transaction hex now data (restatus g s)
  = ((create_transaction hex now data s).1,
     restatus g (create_transaction hex now data s).2)
  /\ forall from_id to_id amount_text c src tgt bf bt ca ea,
       Request.from_account data = Some from_id ->
       Request.to_account data = Some to_id ->
       Request.amount data = Some amount_text ->
       Request.currency data = Some (JString c) ->
       ascii_text c ->
       from_id <> to_id ->
       accounts s !! from_id = Some src ->
       accounts s !! to_id = Some tgt ->
       Account.balance src = Decimal.Fin bf (-2) ->
       Account.balance tgt = Decimal.Fin bt (-2) ->
       Decimal.of_string amount_text = Some (Decimal.Fin ca ea) ->
       -2 <= ea ->
       0 <= ca * 10 ^ (ea + 2) <= bf ->
       bf < 10 ^ 15 ->
       Z.abs bt < 10 ^ 15 ->
       Z.abs (bt + ca * 10 ^ (ea + 2)) < 10 ^ 15 ->
       existsb (fun t => String.eqb (Transaction.id t)
                  (String.append "TXN-" (upper (substring 0 8 hex))))
         (transactions s) = false ->
       let t := new_transaction hex now from_id to_id (Decimal.Fin ca ea) c
                  (default EmptyString (Request.description data)) in
       let src' := Account.with_balance (Account.with_status src (g from_id))
                     (Decimal.Fin (bf - ca * 10 ^ (ea + 2)) (-2)) in
       let tgt' := Account.with_balance (Account.with_status tgt (g to_id))
                     (Decimal.Fin (bt + ca * 10 ^ (ea + 2)) (-2)) in
       create_transaction hex now data (restatus g s)
       = (RespCreated t 201,
          mkdb (<[to_id := tgt']> (<[from_id := src']> (accounts (restatus g s))))
               (transactions s ++ [t])).
Proof.
  split; [apply create_transaction_restatus|].
  intros from_id to_id amount_text c src tgt bf bt ca ea
    Hf Ht Ha Hc _ Hne Hsrc Htgt Hbs Hbt Hd Hea Hle Hbf Hbtb Hsum Hex t src' tgt'.
  assert (Hp : 10 ^ 15 < 10 ^ Decimal.prec) by (unfold Decimal.prec; lia).
  assert (Hm : Z.min (-2) ea = -2) by lia.
  assert (He0 : -2 - -2 = 0) by lia.
  assert (He2 : ea - -2 = ea + 2) by lia.
  pose proof (create_transaction_posts hex now data (restatus g s)
                from_id to_id amount_text c
                (Account.with_status src (g from_id))
                (Account.with_status tgt (g to_id))
                bf (-2) bt (-2) ca ea Hf Ht Ha Hc Hne) as H.
  rewrite !restatus_lookup, Hsrc, Htgt in H.
  specialize (H eq_refl eq_refl Hbs Hbt Hd).
  cbv zeta in H. rewrite Hm, He0, He2, Z.pow_0_r, !Z.mul_1_r in H.
  apply H; [lia | | | exact Hex].
  - split; [lia|]. unfold Decimal.Etiny, Decimal.Etop, Decimal.Emin,
      Decimal.Emax, Decimal.prec. lia.
  - split; [lia|]. unfold Decimal.Etiny, Decimal.Etop, Decimal.Emin,
      Decimal.Emax, Decimal.prec. lia.
Qed.

Lemma transfer_ignores_status_witness :
  create_transaction "0a1b2c3d4e5f" 10 (Scenario.req "A1" "A2" "300.00")
    (restatus (fun _ => "Inactive"%string) Scenario.s0)
  = (RespCreated (new_transaction "0a1b2c3d4e5f" 10 "A1" "A2"
                    (Decimal.Fin 30000 (-2)) "usd" "") 201,
     mkdb (<["A2"%string := Scenario.acct "Second" "USD" "Inactive" 80000]>
             (<["A1"%string := Scenario.acct "First" "USD" "Inactive" 70000]>
                (accounts (restatus (fun _ => "Inactive"%string) Scenario.s0))))
          [new_transaction "0a1b2c3d4e5f" 10 "A1" "A2"
             (Decimal.Fin 30000 (-2)) "usd" ""]).
Proof.
  apply (proj2 (transfer_ignores_status (fun _ => "Inactive"%string)
                  "0a1b2c3d4e5f" 10 (Scenario.req "A1" "A2" "300.00")
                  Scenario.s0)
           "A1"%string "A2"%string "300.00"%string "usd"%string
           (Scenario.acct "First" "USD" "Active" 100000)
           (Scenario.acct "Second" "USD" "Active" 50000)
           100000 50000 30000 (-2));
    try reflexivity; try discriminate; try (vm_compute; reflexivity);
    try lia.
  unfold ascii_text. simpl. repeat constructor.
Defined.

(** With the source inactive and the target closed the transfer of the
    scenario is accepted and the balances move. *)
Example transfer_between_inactive_accounts :
  restatus (fun id => if String.eqb id "A1" then "Inactive" else "Closed")%string
    Scenario.s0 = Scenario.s0_inactive
  /\ exists t s',
       create_transaction "0a1b2c3d4e5f" 10
         (Scenario.req "A1" "A2" "300.00") Scenario.s0_inactive
       = (RespCreated t 201, s')
       /\ balance_of s' "A1" = Some (Decimal.Fin 70000 (-2))
       /\ balance_of s' "A2" = Some (Decimal.Fin 80000 (-2)).
Proof.
  split; [vm_compute; reflexivity|].
  eexists _, _. repeat split; vm_compute; reflexivity.
Qed.


(** * Further properties of the handlers *)

(** ** The transaction log *)

Lemma find_app_None {A} (f : A -> bool) l k :
  existsb f l = false -> find f (l ++ k) = find f k.
Proof.
  induction l as [|x l IH]; simpl; [done|].
  destruct (f x); [done|]. exact IH.
Qed.

Lemma find_app_Some {A} (f : A -> bool) l k x :
  find f l = Some x -> find f (l ++ k) = Some x.
Proof.
  induction l as [|y l IH]; simpl; [done|]. by destruct (f y).
Qed.

Lemma existsb_id_false log i :
  existsb (fun t => String.eqb (Transaction.id t) i) log = false ->
  i ∉ Transaction.id <$> log.
Proof.
  induction log as [|t log IH]; simpl; [intros _; apply not_elem_of_nil|].
  destruct (String.eqb_spec (Transaction.id t) i) as [|Hne]; [done|].
  simpl. intros H. rewrite not_elem_of_cons. split; [done | by apply IH].
Qed.

(** X1.  A record the handler has answered with 201 is the one
    [get_transaction] finds under its id in the resulting database. *)
Theorem created_transaction_is_retrievable hex now data s t code s' :
  create_transaction hex now data s = (RespCreated t code, s') ->
  get_transaction (Transaction.id t) s' = Found t.
Proof.
  intros H.
  apply create_transaction_cases in H
    as [[_ Hno] | (from_id & to_id & at_ & d & c & src & tgt & a1 & a2 &
                   _ & _ & _ & _ & _ & _ & _ & _ & _ & _ & Hex & Hr & ->)];
    [by destruct (Hno t code)|].
  injection Hr as -> ->. unfold get_transaction. simpl.
  rewrite find_app_None by exact Hex. simpl. by rewrite String.eqb_refl.
Qed.

Lemma created_transaction_is_retrievable_witness :
  get_transaction "TXN-0A1B2C3D"
    (create_transaction "0a1b2c3d4e5f" 10
       (Scenario.req "A1" "A2" "300.00") Scenario.s0).2
  = Found (new_transaction "0a1b2c3d4e5f" 10 "A1" "A2"
             (Decimal.Fin 30000 (-2)) "usd" "").
Proof.
  apply (created_transaction_is_retrievable "0a1b2c3d4e5f" 10
           (Scenario.req "A1" "A2" "300.00") Scenario.s0
           (new_transaction "0a1b2c3d4e5f" 10 "A1" "A2"
              (Decimal.Fin 30000 (-2)) "usd" "") 201).
  vm_compute. reflexivity.
Defined.

(** X2.  The log is append-only: whatever the request and its outcome, the
    log afterwards is the old log, or the old log and one record after it,
    and every record [get_transaction] found before it finds unchanged. *)
Theorem transaction_log_is_append_only hex now data s :
  let s' := (create_transaction hex now data s).2 in
  (transactions s' = transactions s
   \/ exists t, transactions s' = transactions s ++ [t])
  /\ forall i t0, get_transaction i s = Found t0 ->
                  get_transaction i s' = Found t0.
Proof.
  destruct (create_transaction hex now data s) as [resp s'] eqn:H. simpl.
  apply create_transaction_cases in H
    as [[-> _] | (from_id & to_id & at_ & d & c & src & tgt & a1 & a2 &
                  _ & _ & _ & _ & _ & _ & _ & _ & _ & _ & _ & _ & ->)].
  - split; [by left | done].
  - simpl. split; [right; by eexists|].
    intros i t0. unfold get_transaction. simpl.
    destruct (find _ (transactions s)) as [t1|] eqn:Hfind; [|done].
    intros [= ->]. by rewrite (find_app_Some _ _ _ _ Hfind).
Qed.

Lemma transaction_log_is_append_only_witness :
  get_transaction "T1"
    (create_transaction "0a1b2c3d4e5f" 10 (Scenario.req "A1" "A2" "300.00")
       (mkdb (accounts Scenario.s0) [Scenario.txn "T1" 5])).2
  = Found (Scenario.txn "T1" 5).
Proof.
  apply (proj2 (transaction_log_is_append_only "0a1b2c3d4e5f" 10
                  (Scenario.req "A1" "A2" "300.00")
                  (mkdb (accounts Scenario.s0) [Scenario.txn "T1" 5]))).
  reflexivity.
Defined.

(** X3.  Transaction ids stay unique: if no two records of the log share an
    id before a request, none do after it. *)
Theorem transaction_ids_stay_unique hex now data s :
  NoDup (transaction_ids s) ->
  NoDup (transaction_ids (create_transaction hex now data s).2).
Proof.
  intros Hnd.
  destruct (create_transaction hex now data s) as [resp s'] eqn:H. simpl.
  apply create_transaction_cases in H
    as [[-> _] | (from_id & to_id & at_ & d & c & src & tgt & a1 & a2 &
                  _ & _ & _ & _ & _ & _ & _ & _ & _ & _ & Hex & _ & ->)];
    [done|].
  unfold transaction_ids in *. simpl. rewrite fmap_app. simpl.
  apply NoDup_app. split; [done|]. split; [|apply NoDup_singleton].
  intros i Hi Hin. apply list_elem_of_singleton in Hin as ->.
  by apply existsb_id_false in Hex.
Qed.

Lemma transaction_ids_stay_unique_witness :
  NoDup (transaction_ids
           (create_transaction "0a1b2c3d4e5f" 10
              (Scenario.req "A1" "A2" "300.00")
              (mkdb (accounts Scenario.s0) [Scenario.txn "T1" 5])).2).
Proof.
  apply (transaction_ids_stay_unique "0a1b2c3d4e5f" 10
           (Scenario.req "A1" "A2" "300.00")
           (mkdb (accounts Scenario.s0) [Scenario.txn "T1" 5])).
  apply (bool_decide_unpack _). vm_compute. reflexivity.
Defined.

(** X4.  When the id the handler generates is already the id of a record,
    the request is never answered 201 and the database is left as it was:
    no record is replaced, none is added, no balance changes. *)
Theorem id_collision_changes_nothing hex now data s :
  existsb (fun t => String.eqb (Transaction.id t)
             (String.append "TXN-" (upper (substring 0 8 hex))))
    (transactions s) = true ->
  (create_transaction hex now data s).2 = s
  /\ forall t code, (create_transaction hex now data s).1 <> RespCreated t code.
Proof.
  intros Hex.
  destruct (create_transaction hex now data s) as [resp s'] eqn:H. simpl.
  apply create_transaction_cases in H
    as [[-> Hno] | (from_id & to_id & at_ & d & c & src & tgt & a1 & a2 &
                    _ & _ & _ & _ & _ & _ & _ & _ & _ & _ & Hex' & _ & _)];
    [done|].
  simpl in Hex'. congruence.
Qed.

Lemma id_collision_changes_nothing_witness :
  (create_transaction "0a1b2c3d4e5f" 10 (Scenario.req "A1" "A2" "300.00")
     (mkdb (accounts Scenario.s0) [Scenario.txn "TXN-0A1B2C3D" 5])).2
  = mkdb (accounts Scenario.s0) [Scenario.txn "TXN-0A1B2C3D" 5].
Proof.
  apply (id_collision_changes_nothing "0a1b2c3d4e5f" 10
           (Scenario.req "A1" "A2" "300.00")
           (mkdb (accounts Scenario.s0) [Scenario.txn "TXN-0A1B2C3D" 5])).
  vm_compute. reflexivity.
Defined.

Example id_collision_raises :
  (create_transaction "0a1b2c3d4e5f" 10 (Scenario.req "A1" "A2" "300.00")
     (mkdb (accounts Scenario.s0) [Scenario.txn "TXN-0A1B2C3D" 5])).1
  = RespRaise IntegrityError.
Proof. vm_compute. reflexivity. Qed.

(** ** The generated id *)

Lemma upper_length s : String.length (upper s) = String.length s.
Proof. induction s as [|a s IH]; simpl; [done | by rewrite IH]. Qed.

Lemma substring_0_length n s :
  (n <= String.length s)%nat -> String.length (substring 0 n s) = n.
Proof.
  revert s. induction n as [|n IH]; intros [|a s] Hn; simpl in *; try done.
  - lia.
  - rewrite IH; [done | lia].
Qed.

Lemma substring_0_chars (P : ascii -> Prop) n s :
  Forall P (list_ascii_of_string s) ->
  Forall P (list_ascii_of_string (substring 0 n s)).
Proof.
  revert s. induction n as [|n IH]; intros [|a s] H; simpl in *;
    try by constructor.
  apply Forall_cons in H as [Ha Hs]. constructor; [done | by apply IH].
Qed.

Lemma upper_hex_chars s :
  Forall (fun a => is_hex_lower a = true) (list_ascii_of_string s) ->
  Forall (fun a => is_hex_upper a = true) (list_ascii_of_string (upper s)).
Proof.
  induction s as [|a s IH]; simpl; intros H; [constructor|].
  apply Forall_cons in H as [Ha Hs]. constructor; [|by apply IH].
  clear -Ha. destruct a as [[] [] [] [] [] [] [] []]; by vm_compute in Ha |- *.
Qed.

(** X5.  With [hex] the 32 lowercase hexadecimal digits of a uuid (at least
    8 are needed), the id of a created record is "TXN-" followed by exactly
    8 characters, each a digit or a letter from A to F. *)
Theorem created_id_format hex now data s t code s' :
  (8 <= String.length hex)%nat ->
  Forall (fun a => is_hex_lower a = true) (list_ascii_of_string hex) ->
  create_transaction hex now data s = (RespCreated t code, s') ->
  exists suffix,
    Transaction.id t = String.append "TXN-" suffix
    /\ String.length suffix = 8%nat
    /\ Forall (fun a => is_hex_upper a = true) (list_ascii_of_string suffix).
Proof.
  intros Hlen Hhex H.
  apply create_transaction_cases in H
    as [[_ Hno] | (from_id & to_id & at_ & d & c & src & tgt & a1 & a2 &
                   _ & _ & _ & _ & _ & _ & _ & _ & _ & _ & _ & Hr & _)];
    [by destruct (Hno t code)|].
  injection Hr as -> ->. exists (upper (substring 0 8 hex)).
  split; [reflexivity|]. split.
  - by rewrite upper_length, substring_0_length.
  - by apply upper_hex_chars, substring_0_chars.
Qed.

Lemma created_id_format_witness :
  exists suffix,
    Transaction.id (new_transaction "0a1b2c3d4e5f" 10 "A1" "A2"
                      (Decimal.Fin 30000 (-2)) "usd" "")
    = String.append "TXN-" suffix
    /\ String.length suffix = 8%nat
    /\ Forall (fun a => is_hex_upper a = true) (list_ascii_of_string suffix).
Proof.
  apply (created_id_format "0a1b2c3d4e5f" 10
           (Scenario.req "A1" "A2" "300.00") Scenario.s0
           (new_transaction "0a1b2c3d4e5f" 10 "A1" "A2"
              (Decimal.Fin 30000 (-2)) "usd" "") 201
           (create_transaction "0a1b2c3d4e5f" 10
              (Scenario.req "A1" "A2" "300.00") Scenario.s0).2).
  - simpl. lia.
  - simpl. repeat constructor.
  - vm_compute. reflexivity.
Defined.

(** ** Currency, and amounts that are not numbers *)

Lemma update_balance_recurrency g f id (m : gmap string Account.t) :
  update_balance f id
    (map_imap (fun id a =>
       Some (Account.mk (Account.name a) (g id) (Account.account_type a)
               (Account.status a) (Account.balance a) (Account.created_at a))) m)
  = match update_balance f id m with
    | Ok m' =>
        Ok (map_imap (fun id a =>
              Some (Account.mk (Account.name a) (g id) (Account.account_type a)
                      (Account.status a) (Account.balance a)
                      (Account.created_at a))) m')
    | Raise e => Raise e
    end.
Proof.
  unfold update_balance. rewrite map_lookup_imap.
  destruct (m !! id) as [a|]; simpl; [|done].
  destruct (f (Account.balance a)) as [b|]; simpl; [|done].
  f_equal. symmetry. by apply map_imap_insert_Some.
Qed.

(** X6.  The handler never reads the currency of an account: with the
    currencies of the accounts replaced at will it gives the same response,
    and its resulting database is the original result with the currencies
    replaced likewise.  A request tagged with one currency moves money
    between accounts of any other. *)
Theorem transfer_ignores_account_currency (g : string -> string) hex now data s :
  create_transaction hex now data (recurrency g s)
  = ((create_transaction hex now data s).1,
     recurrency g (create_transaction hex now data s).2).
Proof.
  unfold create_transaction.
  destruct (find _ required_fields); [done|].
  destruct (Request.from_account data) as [from_id|]; [|done].
  destruct (Request.to_account data) as [to_id|]; [|done].
  destruct (Request.amount data) as [amount_text|]; [|done].
  destruct (Request.currency data) as [cur|]; [|done].
  unfold recurrency at 1 2. simpl. rewrite !map_lookup_imap.
  destruct (accounts s !! from_id) as [src|]; simpl; [|done].
  destruct (accounts s !! to_id) as [tgt|]; simpl; [|done].
  unfold post. simpl.
  destruct (Decimal.of_string amount_text) as [d|]; simpl; [|done].
  destruct (Decimal.lt (Account.balance src) d) as [[|]|]; simpl; [done| |done].
  destruct cur as [c|]; simpl; [|done].
  rewrite update_balance_recurrency.
  destruct (update_balance _ from_id (accounts s)) as [a1|]; simpl; [|done].
  rewrite update_balance_recurrency.
  destruct (update_balance _ to_id a1) as [a2|]; simpl; [|done].
  by destruct (existsb _ _).
Qed.

(** X7.  An amount that converts to NaN or to positive Infinity is never
    posted: the response is not a 201 and the database is unchanged.
    (Negative Infinity is outside this statement: it is below every balance
    and passes the funds check.) *)
Theorem nan_and_infinity_are_never_posted hex now data s amount_text d :
  Request.amount data = Some amount_text ->
  Decimal.of_string amount_text = Some d ->
  (d = Decimal.Inf false \/ exists sig, d = Decimal.NaN sig) ->
  (create_transaction hex now data s).2 = s
  /\ forall t code, (create_transaction hex now data s).1 <> RespCreated t code.
Proof.
  intros Ha Hd Hspecial.
  destruct (create_transaction hex now data s) as [resp s'] eqn:H. simpl.
  apply create_transaction_cases in H
    as [[-> Hno] | (from_id & to_id & at_ & d' & c & src & tgt & a1 & a2 &
                    _ & _ & Ha' & _ & Hsrc & _ & Hd' & Hlt & H1 & _)];
    [done|].
  exfalso. rewrite Ha in Ha'. injection Ha' as <-.
  rewrite Hd in Hd'. injection Hd' as <-.
  unfold update_balance in H1. rewrite Hsrc in H1.
  destruct Hspecial as [-> | [sig ->]].
  - destruct (Account.balance src) as [cb eb|[]|[]]; simpl in *; discriminate.
  - destruct (Account.balance src) as [cb eb|[]|[]]; simpl in *; discriminate.
Qed.

Lemma nan_and_infinity_are_never_posted_witness :
  (create_transaction "0a1b2c3d4e5f" 10
     (Scenario.req "A1" "A2" "Infinity") Scenario.s0).2 = Scenario.s0.
Proof.
  apply (nan_and_infinity_are_never_posted "0a1b2c3d4e5f" 10
           (Scenario.req "A1" "A2" "Infinity") Scenario.s0 "Infinity"
           (Decimal.Inf false) eq_refl).
  - vm_compute. reflexivity.
  - by left.
Defined.

(** X8.  A currency that is present but not a string is noticed only after
    the funds check: with both accounts found, the amount converted and the
    balance not below it, the handler raises AttributeError and the database
    is unchanged. *)
Theorem currency_not_a_string_raises hex now data s from_id to_id amount_text
    src tgt d :
  Request.from_account data = Some from_id ->
  Request.to_account data = Some to_id ->
  Request.amount data = Some amount_text ->
  Request.currency data = Some JNotString ->
  accounts s !! from_id = Some src ->
  accounts s !! to_id = Some tgt ->
  Decimal.of_string amount_text = Some d ->
  Decimal.lt (Account.balance src) d = Ok false ->
  create_transaction hex now data s = (RespRaise AttributeError, s).
Proof.
  intros Hf Ht Ha Hc Hsrc Htgt Hd Hlt.
  rewrite (create_transaction_present _ _ _ _ _ _ _ _ Hf Ht Ha Hc), Hsrc, Htgt.
  unfold post. rewrite Hd. simpl. by rewrite Hlt.
Qed.

Lemma currency_not_a_string_raises_witness :
  create_transaction "0a1b2c3d4e5f" 10
    (Request.mk (Some "A1"%string) (Some "A2"%string) (Some "300.00"%string)
       (Some JNotString) None) Scenario.s0
  = (RespRaise AttributeError, Scenario.s0).
Proof.
  apply (currency_not_a_string_raises "0a1b2c3d4e5f" 10 _ Scenario.s0
           "A1" "A2" "300.00"
           (Scenario.acct "First" "USD" "Active" 100000)
           (Scenario.acct "Second" "USD" "Active" 50000)
           (Decimal.Fin 30000 (-2)));
    vm_compute; reflexivity.
Defined.

(** ** The queries after a transfer *)

Lemma create_transaction_frame hex now data s (id : string) :
  option_Forall2 same_but_balance (accounts s !! id)
    (accounts (create_transaction hex now data s).2 !! id).
Proof.
  destruct (create_transaction hex now data s) as [resp s'] eqn:H. simpl.
  apply create_transaction_cases in H
    as [[-> _] | (from_id & to_id & at_ & d & c & src & tgt & a1 & a2 &
                  _ & _ & _ & _ & _ & _ & _ & _ & H1 & H2 & _ & _ & ->)].
  - destruct (accounts s !! id); constructor. apply same_but_balance_refl.
  - simpl. eapply option_same_but_balance_trans.
    + apply (update_balance_frame _ _ _ _ H1 id).
    + apply (update_balance_frame _ _ _ _ H2 id).
Qed.

Lemma created_accounts_cents hex now data s t code s' src tgt bf bt ca ea :
  create_transaction hex now data s = (RespCreated t code, s') ->
  Transaction.from_account t <> Transaction.to_account t ->
  accounts s !! Transaction.from_account t = Some src ->
  accounts s !! Transaction.to_account t = Some tgt ->
  Account.balance src = Decimal.Fin bf (-2) ->
  Account.balance tgt = Decimal.Fin bt (-2) ->
  Transaction.amount t = Decimal.Fin ca ea ->
  -2 <= ea ->
  Z.abs (bf - ca * 10 ^ (ea + 2)) < 10 ^ Decimal.prec ->
  Z.abs (bt + ca * 10 ^ (ea + 2)) < 10 ^ Decimal.prec ->
  accounts s'
  = <[Transaction.to_account t :=
        Account.with_balance tgt (Decimal.Fin (bt + ca * 10 ^ (ea + 2)) (-2))]>
      (<[Transaction.from_account t :=
           Account.with_balance src (Decimal.Fin (bf - ca * 10 ^ (ea + 2)) (-2))]>
         (accounts s)).
Proof.
  intros H Hne Hs Ht Hbs Hbt Hamt Hea Hf Hg.
  apply create_transaction_cases in H
    as [[_ Hno] | (from_id & to_id & at_ & d & c & src' & tgt' & a1 & a2 &
                   _ & _ & _ & _ & Hsrc & Htgt & _ & _ & H1 & H2 & _ & Hr & ->)];
    [by destruct (Hno t code)|].
  injection Hr as -> ->. simpl in *. subst d.
  rewrite Hsrc in Hs. injection Hs as ->.
  rewrite Htgt in Ht. injection Ht as ->.
  erewrite update_balance_Some in H1;
    [| exact Hsrc | rewrite Hbs; by apply sub_cents].
  injection H1 as <-.
  erewrite update_balance_Some in H2;
    [| rewrite lookup_insert_ne by done; exact Htgt
     | rewrite Hbt; by apply add_cents].
  by injection H2 as <-.
Qed.

(** X9.  After a transfer that succeeded between two distinct accounts
    (balances with two decimal places, amount of at most two fractional
    digits, results within the context), the balance query of the source
    reports the old balance minus the amount and that of the target the old
    balance plus the amount, with currency and status as before. *)
Theorem balance_query_after_transfer {F : Type} (py_float : Decimal.t -> F)
    hex now data s t code s' src tgt bf bt ca ea :
  create_transaction hex now data s = (RespCreated t code, s') ->
  Transaction.from_account t <> Transaction.to_account t ->
  accounts s !! Transaction.from_account t = Some src ->
  accounts s !! Transaction.to_account t = Some tgt ->
  Account.balance src = Decimal.Fin bf (-2) ->
  Account.balance tgt = Decimal.Fin bt (-2) ->
  Transaction.amount t = Decimal.Fin ca ea ->
  -2 <= ea ->
  Z.abs (bf - ca * 10 ^ (ea + 2)) < 10 ^ Decimal.prec ->
  Z.abs (bt + ca * 10 ^ (ea + 2)) < 10 ^ Decimal.prec ->
  get_account_balance py_float (Transaction.from_account t) s'
  = Found (BalanceInfo.mk (Transaction.from_account t)
             (py_float (Decimal.Fin (bf - ca * 10 ^ (ea + 2)) (-2)))
             (Account.currency src) (Account.status src))
  /\ get_account_balance py_float (Transaction.to_account t) s'
     = Found (BalanceInfo.mk (Transaction.to_account t)
                (py_float (Decimal.Fin (bt + ca * 10 ^ (ea + 2)) (-2)))
                (Account.currency tgt) (Account.status tgt)).
Proof.
  intros H Hne Hs Ht Hbs Hbt Hamt Hea Hf Hg.
  unfold get_account_balance.
  rewrite (created_accounts_cents _ _ _ _ _ _ _ _ _ _ _ _ _
             H Hne Hs Ht Hbs Hbt Hamt Hea Hf Hg).
  rewrite lookup_insert_ne by congruence.
  by rewrite !lookup_insert_eq.
Qed.

Lemma balance_query_after_transfer_witness :
  get_account_balance (fun d => d) "A1"
    (create_transaction "0a1b2c3d4e5f" 10
       (Scenario.req "A1" "A2" "300.00") Scenario.s0).2
  = Found (BalanceInfo.mk "A1" (Decimal.Fin (100000 - 30000 * 10 ^ (-2 + 2)) (-2))
             "USD" "Active")
  /\ get_account_balance (fun d => d) "A2"
       (create_transaction "0a1b2c3d4e5f" 10
          (Scenario.req "A1" "A2" "300.00") Scenario.s0).2
     = Found (BalanceInfo.mk "A2" (Decimal.Fin (50000 + 30000 * 10 ^ (-2 + 2)) (-2))
                "USD" "Active").
Proof.
  apply (balance_query_after_transfer (fun d => d) "0a1b2c3d4e5f" 10
           (Scenario.req "A1" "A2" "300.00") Scenario.s0
           (new_transaction "0a1b2c3d4e5f" 10 "A1" "A2"
              (Decimal.Fin 30000 (-2)) "usd" "") 201 _
           (Scenario.acct "First" "USD" "Active" 100000)
           (Scenario.acct "Second" "USD" "Active" 50000)
           100000 50000 30000 (-2));
    try (vm_compute; reflexivity); try (simpl; discriminate);
    try (vm_compute; lia).
Defined.

(** X10.  No request to [create_transaction] changes whether the balance
    query finds an account, nor the id, currency or status it reports. *)
Theorem balance_query_keeps_identity {F : Type} (py_float : Decimal.t -> F)
    hex now data s (id : string) :
  match get_account_balance py_float id s,
        get_account_balance py_float id (create_transaction hex now data s).2 with
  | Found i, Found i' =>
      BalanceInfo.account_id i' = BalanceInfo.account_id i
      /\ BalanceInfo.currency i' = BalanceInfo.currency i
      /\ BalanceInfo.status i' = BalanceInfo.status i
  | Abort404, Abort404 => True
  | _, _ => False
  end.
Proof.
  unfold get_account_balance.
  destruct (create_transaction_frame hex now data s id)
    as [a a' (_ & Hc & _ & Hst & _)|]; simpl; [|done].
  by rewrite Hc, Hst.
Qed.

(** X11.  After a transfer that succeeded at a time later than the
    [created_at] of every record of the log, every result of the listing
    query begins with the new record. *)
Theorem new_transaction_is_listed_first hex now data s t code s' out :
  Forall (fun t0 => Transaction.created_at t0 < now) (transactions s) ->
  create_transaction hex now data s = (RespCreated t code, s') ->
  get_transactions_returns s' out ->
  head out = Some t.
Proof.
  intros Hold H [Hp Hs].
  apply create_transaction_cases in H
    as [[_ Hno] | (from_id & to_id & at_ & d & c & src & tgt & a1 & a2 &
                   _ & _ & _ & _ & _ & _ & _ & _ & _ & _ & _ & Hr & ->)];
    [by destruct (Hno t code)|].
  injection Hr as -> ->. simpl in Hp.
  set (t := new_transaction _ _ _ _ _ _ _) in *.
  apply Sorted_StronglySorted in Hs; [|apply _].
  destruct out as [|x out].
  { apply Permutation_nil in Hp. by destruct (transactions s). }
  simpl. f_equal.
  apply StronglySorted_inv in Hs as [_ Hx]. rewrite Forall_forall in Hx.
  assert (Ht : t ∈ x :: out).
  { rewrite Hp. apply elem_of_app. right. by apply list_elem_of_singleton. }
  assert (Hxin : x ∈ transactions s ++ [t]) by (rewrite <- Hp; left).
  apply elem_of_cons in Ht as [->|Ht]; [done|].
  apply elem_of_app in Hxin as [Hxin|Hxin];
    [|by apply list_elem_of_singleton in Hxin].
  rewrite Forall_forall in Hold. specialize (Hold x Hxin).
  specialize (Hx t Ht). unfold newer_first in Hx. simpl in Hx. lia.
Qed.

Lemma new_transaction_is_listed_first_witness :
  head (get_transactions
          (create_transaction "0a1b2c3d4e5f" 10 (Scenario.req "A1" "A2" "300.00")
             (mkdb (accounts Scenario.s0) [Scenario.txn "T1" 5])).2)
  = Some (new_transaction "0a1b2c3d4e5f" 10 "A1" "A2"
            (Decimal.Fin 30000 (-2)) "usd" "").
Proof.
  apply (new_transaction_is_listed_first "0a1b2c3d4e5f" 10
           (Scenario.req "A1" "A2" "300.00")
           (mkdb (accounts Scenario.s0) [Scenario.txn "T1" 5])
           _ 201
           (create_transaction "0a1b2c3d4e5f" 10 (Scenario.req "A1" "A2" "300.00")
              (mkdb (accounts Scenario.s0) [Scenario.txn "T1" 5])).2
           _).
  - repeat constructor.
  - vm_compute. reflexivity.
  - apply get_transactions_is_returned.
Defined.

(** X12.  No request to [create_transaction] changes which accounts a
    listing shows: with or without a currency filter, an id is listed after
    the request exactly when it was listed before. *)
Theorem account_listing_keeps_its_ids hex now data s (currency : option string)
    (id : string) :
  (exists a, (id, a) ∈ get_accounts currency s)
  <-> (exists a',
         (id, a') ∈ get_accounts currency (create_transaction hex now data s).2).
Proof.
  pose proof (create_transaction_frame hex now data s id) as Hfr.
  set (s' := (create_transaction hex now data s).2) in *.
  assert (Hmem : forall st a,
            (id, a) ∈ get_accounts currency st
            <-> accounts st !! id = Some a
                /\ match currency with
                   | Some c => c = EmptyString \/ Account.currency a = upper c
                   | None => True
                   end).
  { intros st a. unfold get_accounts. destruct currency as [c|].
    - destruct (String.eqb_spec c ""); simpl.
      + rewrite elem_of_map_to_list. tauto.
      + rewrite list_elem_of_filter, elem_of_map_to_list. simpl. tauto.
    - rewrite elem_of_map_to_list. tauto. }
  split.
  - intros [a Ha]. apply Hmem in Ha as [Hl Hc]. rewrite Hl in Hfr.
    inversion Hfr as [? a' (_ & Hcur & _) Heq1 Heq2|]; subst.
    exists a'. apply Hmem. split; [done|].
    destruct currency; [|done]. destruct Hc; [by left | right; congruence].
  - intros [a' Ha]. apply Hmem in Ha as [Hl Hc]. rewrite Hl in Hfr.
    inversion Hfr as [a ? (_ & Hcur & _) Heq1 Heq2|]; subst.
    exists a. apply Hmem. split; [done|].
    destruct currency; [|done]. destruct Hc; [by left | right; congruence].
Qed.

(** * Seeding ([src/seed_data.py]) *)

Lemma add_account_if_absent_lookup (m : gmap string Account.t) r i :
  add_account_if_absent m r !! i
  = match m !! i with
    | Some a => Some a
    | None => if decide (i = r.1) then Some r.2 else None
    end.
Proof.
  unfold add_account_if_absent.
  destruct (m !! r.1) as [b|] eqn:Hr.
  - destruct (m !! i) as [a|] eqn:Hi; [done|].
    destruct (decide (i = r.1)) as [->|]; [congruence | done].
  - destruct (decide (i = r.1)) as [->|Hne].
    + by rewrite lookup_insert_eq, Hr.
    + rewrite lookup_insert_ne by done. by destruct (m !! i).
Qed.

(** Seeding accounts is a union in which the rows already stored win. *)
Lemma fold_add_account_union (l : list (string * Account.t))
    (m : gmap string Account.t) :
  fold_left add_account_if_absent l m = m ∪ list_to_map l.
Proof.
  revert m. induction l as [|r l IH]; intros m; simpl.
  - by rewrite (right_id_L ∅ (∪)).
  - rewrite IH. apply map_eq. intros i.
    rewrite !lookup_union, add_account_if_absent_lookup.
    destruct r as [j b]. simpl.
    destruct (m !! i) as [a|] eqn:Hi; simpl.
    + by destruct (list_to_map l !! i), (<[j:=b]> (list_to_map l) !! i).
    + destruct (decide (i = j)) as [->|Hne].
      * rewrite lookup_insert_eq. by destruct (list_to_map l !! j).
      * by rewrite lookup_insert_ne.
Qed.

Lemma sample_accounts_ids clock clock' (i : string) :
  is_Some ((list_to_map (sample_accounts clock) : gmap string Account.t) !! i)
  -> is_Some ((list_to_map (sample_accounts clock') : gmap string Account.t) !! i).
Proof.
  simpl. rewrite !lookup_insert.
  repeat (case_decide; [by eauto|]). by rewrite lookup_empty.
Qed.

Lemma add_transaction_if_absent_extends log t :
  exists k, add_transaction_if_absent log t = log ++ k.
Proof.
  unfold add_transaction_if_absent. destruct (existsb _ _).
  - exists []. by rewrite app_nil_r.
  - by exists [t].
Qed.

Lemma fold_add_transaction_extends l log :
  exists k, fold_left add_transaction_if_absent l log = log ++ k.
Proof.
  revert log. induction l as [|t l IH]; intros log; simpl.
  - exists []. by rewrite app_nil_r.
  - destruct (add_transaction_if_absent_extends log t) as [k1 ->].
    destruct (IH (log ++ k1)) as [k2 ->]. exists (k1 ++ k2).
    by rewrite app_assoc.
Qed.

Lemma existsb_id_app log k i :
  existsb (fun t' => String.eqb (Transaction.id t') i) log = true ->
  existsb (fun t' => String.eqb (Transaction.id t') i) (log ++ k) = true.
Proof. intros H. rewrite existsb_app, H. reflexivity. Qed.

Lemma add_transaction_if_absent_present log t :
  existsb (fun t' => String.eqb (Transaction.id t') (Transaction.id t))
    (add_transaction_if_absent log t) = true.
Proof.
  unfold add_transaction_if_absent.
  destruct (existsb _ log) eqn:H; [done|].
  rewrite existsb_app. simpl. rewrite String.eqb_refl.
  by rewrite orb_true_r.
Qed.

Lemma fold_add_transaction_present l log i :
  existsb (fun t' => String.eqb (Transaction.id t') i) log = true
  \/ i ∈ Transaction.id <$> l ->
  existsb (fun t' => String.eqb (Transaction.id t') i)
    (fold_left add_transaction_if_absent l log) = true.
Proof.
  revert log. induction l as [|t l IH]; intros log; simpl.
  - intros [H|H]; [done | by apply elem_of_nil in H].
  - intros [H|H]; apply IH.
    + left. destruct (add_transaction_if_absent_extends log t) as [k ->].
      by apply existsb_id_app.
    + apply elem_of_cons in H as [->|H]; [left | by right].
      apply add_transaction_if_absent_present.
Qed.

Lemma fold_add_transaction_noop l log :
  (forall i, i ∈ Transaction.id <$> l ->
             existsb (fun t' => String.eqb (Transaction.id t') i) log = true) ->
  fold_left add_transaction_if_absent l log = log.
Proof.
  induction l as [|t l IH]; simpl; intros H; [done|].
  unfold add_transaction_if_absent at 2.
  rewrite (H (Transaction.id t)) by left.
  apply IH. intros i Hi. apply H. by right.
Qed.

Lemma fold_add_transaction_NoDup l log :
  NoDup (Transaction.id <$> log) ->
  NoDup (Transaction.id <$> fold_left add_transaction_if_absent l log).
Proof.
  revert log. induction l as [|t l IH]; intros log Hnd; simpl; [done|].
  apply IH. unfold add_transaction_if_absent.
  destruct (existsb _ log) eqn:Hex; [done|].
  rewrite fmap_app. apply NoDup_app. split; [done|].
  split; [|apply NoDup_singleton].
  intros i Hi Hin. apply list_elem_of_singleton in Hin as ->.
  by apply existsb_id_false in Hex.
Qed.

(** X13.  Seeding twice is seeding once: on a seeded database [seed_all]
    changes nothing, whatever the clock of the second run. *)
Theorem seed_all_is_idempotent clock clock' s :
  seed_all clock' (seed_all clock s) = seed_all clock s.
Proof.
  unfold seed_all, seed_transactions, seed_accounts.
  cbn [accounts transactions]. f_equal.
  - rewrite !fold_add_account_union. apply map_eq. intros i.
    destruct ((accounts s ∪ list_to_map (sample_accounts clock)) !! i)
      as [a|] eqn:H1.
    + by apply lookup_union_Some_l.
    + rewrite lookup_union_r by done.
      apply lookup_union_None in H1 as [_ H1].
      destruct (list_to_map (M := gmap string Account.t)
                  (sample_accounts clock') !! i) as [a'|] eqn:H2; [|done].
      destruct (sample_accounts_ids clock' clock i ltac:(by eauto)) as [? ?].
      congruence.
  - apply fold_add_transaction_noop. intros i Hi.
    apply fold_add_transaction_present. right. exact Hi.
Qed.

(** X14.  Seeding overwrites nothing: an account stored before [seed_all] is
    stored unchanged after it, balance included; the log keeps its records
    in place, and a record [get_transaction] found it still finds. *)
Theorem seed_all_overwrites_nothing clock s :
  (forall id a, accounts s !! id = Some a ->
                accounts (seed_all clock s) !! id = Some a)
  /\ transactions s `prefix_of` transactions (seed_all clock s)
  /\ (forall i t, get_transaction i s = Found t ->
                  get_transaction i (seed_all clock s) = Found t).
Proof.
  unfold seed_all, seed_transactions, seed_accounts.
  cbn [accounts transactions].
  destruct (fold_add_transaction_extends (sample_transactions clock)
              (transactions s)) as [k Hk].
  repeat apply conj.
  - intros id a Ha. rewrite fold_add_account_union.
    by apply lookup_union_Some_l.
  - rewrite Hk. by exists k.
  - intros i t. unfold get_transaction. cbn [accounts transactions]. rewrite Hk.
    destruct (find _ (transactions s)) as [t1|] eqn:Hfind; [|done].
    intros [= ->]. by rewrite (find_app_Some _ _ _ _ Hfind).
Qed.

Lemma seed_all_overwrites_nothing_witness :
  accounts (seed_all (fun _ => 0) Scenario.s0) !! "A1"%string
  = Some (Scenario.acct "First" "USD" "Active" 100000).
Proof.
  apply (proj1 (seed_all_overwrites_nothing (fun _ => 0) Scenario.s0)).
  reflexivity.
Defined.

(** X15.  After [seed_all], whatever the database was, each of the six
    sample accounts is found by the balance query and each of the two
    sample transaction ids by [get_transaction]. *)
Theorem seed_all_provides_the_samples {F : Type} (py_float : Decimal.t -> F)
    clock s :
  Forall (fun r => get_account_balance py_float r.1 (seed_all clock s) <> Abort404)
    (sample_accounts clock)
  /\ Forall (fun t => get_transaction (Transaction.id t) (seed_all clock s)
                      <> Abort404)
       (sample_transactions clock).
Proof.
  split.
  - assert (H : forall i,
              is_Some ((list_to_map (sample_accounts clock)
                        : gmap string Account.t) !! i) ->
              get_account_balance py_float i (seed_all clock s) <> Abort404).
    { intros i [a Ha]. unfold get_account_balance, seed_all, seed_transactions,
        seed_accounts. cbn [accounts transactions].
      rewrite fold_add_account_union.
      destruct (accounts s !! i) as [a0|] eqn:Hi.
      - by rewrite (lookup_union_Some_l _ _ _ _ Hi).
      - by rewrite lookup_union_r, Ha by done. }
    repeat constructor; apply H; simpl; rewrite lookup_insert;
      repeat (case_decide; [by eauto|]); done.
  - assert (H : forall i, i ∈ Transaction.id <$> sample_transactions clock ->
              get_transaction i (seed_all clock s) <> Abort404).
    { intros i Hi. unfold get_transaction, seed_all, seed_transactions.
      cbn [accounts transactions].
      pose proof (fold_add_transaction_present (sample_transactions clock)
                    (transactions (seed_accounts clock s)) i (or_intror Hi)) as Hex.
      destruct (find _ _) as [t|] eqn:Hfind; [done|].
      apply existsb_exists in Hex as (t & Hin & Heq).
      by rewrite (find_none _ _ Hfind t Hin) in Heq. }
    repeat constructor; apply H; simpl; set_solver.
Qed.

(** X16.  Seeding keeps the invariants of the tables: if no balance was
    negative none is after [seed_all], and if the transaction ids were
    pairwise distinct they still are. *)
Theorem seed_all_keeps_invariants clock s :
  (all_nonneg s -> all_nonneg (seed_all clock s))
  /\ (NoDup (transaction_ids s) -> NoDup (transaction_ids (seed_all clock s))).
Proof.
  split.
  - unfold all_nonneg, seed_all, seed_transactions, seed_accounts.
    cbn [accounts transactions].
    intros Hs i a. rewrite fold_add_account_union.
    destruct (accounts s !! i) as [a0|] eqn:Hi.
    + rewrite (lookup_union_Some_l _ _ _ _ Hi). intros [= <-]. by apply (Hs i).
    + rewrite lookup_union_r by done. simpl. rewrite !lookup_insert.
      repeat (case_decide; [intros [= <-]; simpl; lia|]).
      by rewrite lookup_empty.
  - unfold transaction_ids, seed_all, seed_transactions.
    cbn [accounts transactions].
    apply fold_add_transaction_NoDup.
Qed.

Lemma seed_all_keeps_invariants_witness :
  NoDup (transaction_ids (seed_all (fun _ => 0) Scenario.s0)).
Proof.
  apply (proj2 (seed_all_keeps_invariants (fun _ => 0) Scenario.s0)).
  apply (bool_decide_unpack _). vm_compute. reflexivity.
Defined.

(** * The dispatch of [mock_ai_response] ([src/chat.py]) *)

(** ** Substrings *)

Lemma app_cons x (a b : string) :
  (String x a +:+ b)%string = String x (a +:+ b)%string.
Proof. reflexivity. Qed.

Lemma app_nil (b : string) : (EmptyString +:+ b)%string = b.
Proof. reflexivity. Qed.

Lemma string_app_assoc' (a b c : string) :
  ((a +:+ b) +:+ c = a +:+ (b +:+ c))%string.
Proof.
  induction a as [|x a IH]; [done|]. rewrite !app_cons. by f_equal.
Qed.

Lemma prefix_true_iff (n h : string) :
  String.prefix n h = true <-> exists post, h = (n +:+ post)%string.
Proof.
  revert h. induction n as [|x n IH]; intros [|y h]; simpl.
  - split; [intros _; by exists EmptyString | done].
  - split; [intros _; by exists (String y h) | done].
  - split; [done|]. intros [post Hp]. by rewrite app_cons in Hp.
  - destruct (Ascii.ascii_dec x y) as [->|Hne].
    + rewrite IH. split; intros [post Hp]; exists post.
      * by rewrite app_cons, Hp.
      * rewrite app_cons in Hp. by injection Hp.
    + split; [done|]. intros [post Hp]. rewrite app_cons in Hp.
      injection Hp as ? ?. congruence.
Qed.

Lemma contains_nil n : contains n EmptyString = String.prefix n EmptyString.
Proof. unfold contains. apply orb_false_r. Qed.

Lemma contains_cons n y h :
  contains n (String y h) = String.prefix n (String y h) || contains n h.
Proof. reflexivity. Qed.

Lemma contains_true_iff (n h : string) :
  contains n h = true
  <-> exists pre post, h = (pre +:+ (n +:+ post))%string.
Proof.
  induction h as [|y h IH].
  - rewrite contains_nil, prefix_true_iff. split.
    + intros [post Hp]. by exists EmptyString, post.
    + intros (pre & post & Hp). destruct pre as [|x pre].
      * by exists post.
      * by rewrite app_cons in Hp.
  - rewrite contains_cons, orb_true_iff, IH, prefix_true_iff. split.
    + intros [[post Hp] | (pre & post & Hp)].
      * by exists EmptyString, post.
      * exists (String y pre), post. by rewrite app_cons, Hp.
    + intros (pre & post & Hp). destruct pre as [|x pre].
      * left. by exists post.
      * right. rewrite app_cons in Hp. injection Hp as -> ->.
        by exists pre, post.
Qed.

Lemma contains_trans (a b c : string) :
  contains a b = true -> contains b c = true -> contains a c = true.
Proof.
  rewrite !contains_true_iff.
  intros (p1 & q1 & ->) (p2 & q2 & ->).
  exists (p2 +:+ p1)%string, (q1 +:+ q2)%string.
  by rewrite !string_app_assoc'.
Qed.

(** ** Case *)

Lemma lower_upper_ascii a : Decimal.lower (upper_ascii a) = Decimal.lower a.
Proof. destruct a as [[] [] [] [] [] [] [] []]; reflexivity. Qed.

Lemma lower_lower_ascii a : Decimal.lower (Decimal.lower a) = Decimal.lower a.
Proof. destruct a as [[] [] [] [] [] [] [] []]; reflexivity. Qed.

Lemma upper_upper_ascii a : upper_ascii (upper_ascii a) = upper_ascii a.
Proof. destruct a as [[] [] [] [] [] [] [] []]; reflexivity. Qed.

Lemma upper_lower_ascii a : upper_ascii (Decimal.lower a) = upper_ascii a.
Proof. destruct a as [[] [] [] [] [] [] [] []]; reflexivity. Qed.

Lemma is_space_upper_ascii a : Decimal.is_space (upper_ascii a) = Decimal.is_space a.
Proof. destruct a as [[] [] [] [] [] [] [] []]; reflexivity. Qed.

Lemma is_space_lower_ascii a : Decimal.is_space (Decimal.lower a) = Decimal.is_space a.
Proof. destruct a as [[] [] [] [] [] [] [] []]; reflexivity. Qed.

Section case_mapping.
(** A mapping of characters that keeps whitespace and the case-folded
    forms, as [upper_ascii] and [Decimal.lower] do. *)
Variable g : ascii -> ascii.
Hypothesis g_lower : forall a, Decimal.lower (g a) = Decimal.lower a.
Hypothesis g_upper : forall a, upper_ascii (g a) = upper_ascii a.
Hypothesis g_space : forall a, Decimal.is_space (g a) = Decimal.is_space a.

Lemma lower_map_string s : lower (map_string g s) = lower s.
Proof. induction s as [|a s IH]; simpl; [done | by rewrite g_lower, IH]. Qed.

Lemma upper_map_string s : upper (map_string g s) = upper s.
Proof. induction s as [|a s IH]; simpl; [done | by rewrite g_upper, IH]. Qed.

Lemma map_string_app w a :
  map_string g (w +:+ String a EmptyString)
  = (map_string g w +:+ String (g a) EmptyString)%string.
Proof.
  induction w as [|x w IH]; [done|].
  rewrite app_cons. simpl. by rewrite IH, app_cons.
Qed.

Lemma split_aux_map_string w s :
  split_aux (map_string g w) (map_string g s)
  = map (map_string g) (split_aux w s).
Proof.
  revert w. induction s as [|a s IH]; intros w; simpl.
  - by destruct w.
  - rewrite g_space. destruct (Decimal.is_space a).
    + destruct w; simpl; by rewrite <- (IH EmptyString).
    + by rewrite <- IH, map_string_app.
Qed.

Lemma find_word_map_string l :
  find (fun word => contains "ACC-" (upper word)) (map (map_string g) l)
  = map_string g <$> find (fun word => contains "ACC-" (upper word)) l.
Proof.
  induction l as [|w l IH]; simpl; [done|].
  rewrite upper_map_string. by destruct (contains _ _).
Qed.

Lemma mock_ai_response_map_string message :
  mock_ai_response (map_string g message) = mock_ai_response message.
Proof.
  unfold mock_ai_response, split.
  rewrite lower_map_string.
  pose proof (split_aux_map_string EmptyString message) as Hsp.
  cbn [map_string] in Hsp. rewrite Hsp, find_word_map_string.
  destruct (find _ (split_aux _ message)) as [w|]; simpl;
    by rewrite ?upper_map_string.
Qed.
End case_mapping.

Lemma map_string_upper s : map_string upper_ascii s = upper s.
Proof. induction s as [|a s IH]; simpl; [done | by rewrite IH]. Qed.

Lemma map_string_lower s : map_string Decimal.lower s = lower s.
Proof. induction s as [|a s IH]; simpl; [done | by rewrite IH]. Qed.

(** X17.  The dispatch does not depend on the case of the message: an ASCII
    message, the same message in capitals and the same message in small
    letters get the same reply (the same fixed text, or the same GET with
    the same currency or account id). *)
Theorem mock_ai_response_ignores_case message :
  ascii_text message ->
  mock_ai_response (upper message) = mock_ai_response message
  /\ mock_ai_response (lower message) = mock_ai_response message.
Proof.
  intros _. split.
  - rewrite <- map_string_upper.
    apply mock_ai_response_map_string;
      auto using lower_upper_ascii, upper_upper_ascii, is_space_upper_ascii.
  - rewrite <- map_string_lower.
    apply mock_ai_response_map_string;
      auto using lower_lower_ascii, upper_lower_ascii, is_space_lower_ascii.
Qed.

Lemma mock_ai_response_ignores_case_witness :
  mock_ai_response (upper "Check balance for acc-001-usd")
  = mock_ai_response "Check balance for acc-001-usd"
  /\ mock_ai_response (lower "Check balance for acc-001-usd")
     = mock_ai_response "Check balance for acc-001-usd".
Proof.
  apply (mock_ai_response_ignores_case "Check balance for acc-001-usd").
  unfold ascii_text. simpl. repeat constructor.
Defined.


(** ** The account id of a balance question *)

Lemma chars_app_one w a :
  list_ascii_of_string (w +:+ String a EmptyString)
  = list_ascii_of_string w ++ [a].
Proof.
  induction w as [|x w IH]; [done|]. rewrite app_cons. simpl. by rewrite IH.
Qed.

Lemma split_aux_words w s :
  no_space w ->
  Forall (fun word => word <> EmptyString /\ no_space word) (split_aux w s).
Proof.
  revert w. induction s as [|a s IH]; intros w Hw; simpl.
  - destruct w; simpl; [constructor|].
    constructor; [by split | constructor].
  - destruct (Decimal.is_space a) eqn:Ha.
    + destruct w; simpl; [apply IH; constructor|].
      constructor; [by split | apply IH; constructor].
    + apply IH. unfold no_space. rewrite chars_app_one.
      apply Forall_app. split; [exact Hw|]. by constructor.
Qed.

Lemma no_space_upper w : no_space w -> no_space (upper w).
Proof.
  unfold no_space. induction w as [|a w IH]; simpl; intros H; [constructor|].
  apply Forall_cons in H as [Ha Hw].
  constructor; [by rewrite is_space_upper_ascii | by apply IH].
Qed.

Lemma upper_upper s : upper (upper s) = upper s.
Proof.
  induction s as [|a s IH]; simpl; [done|]. by rewrite upper_upper_ascii, IH.
Qed.

(** X18.  When an ASCII message is answered from the balance endpoint, the
    account id asked for is a word of the message (a run of characters
    between whitespace) put in capitals: it is not empty, has no whitespace,
    is its own uppercase form and contains "ACC-". *)
Theorem balance_account_id_shape message id :
  ascii_text message ->
  mock_ai_response message = FromBalance id ->
  (exists word, word ∈ split message /\ id = upper word)
  /\ id <> EmptyString /\ no_space id
  /\ upper id = id /\ contains "ACC-" id = true.
Proof.
  intros _. unfold mock_ai_response.
  destruct (_ && _); [done|].
  destruct (contains "balance" _); [|by repeat destruct (_ || _)].
  destruct (find _ (split message)) as [word|] eqn:Hfind; [|done].
  intros [= <-]. apply find_some in Hfind as [Hin Hacc].
  pose proof (split_aux_words EmptyString message ltac:(constructor)) as Hw.
  rewrite Forall_forall in Hw.
  apply list_elem_of_In in Hin. destruct (Hw word Hin) as [Hne Hns].
  split; [by exists word|]. split; [|split; [|split]].
  - intros Hup. by rewrite Hup in Hacc.
  - by apply no_space_upper.
  - apply upper_upper.
  - exact Hacc.
Qed.

Lemma balance_account_id_shape_witness :
  (exists word, word ∈ split "Check balance for acc-001-usd"
                /\ "ACC-001-USD"%string = upper word)
  /\ "ACC-001-USD"%string <> EmptyString /\ no_space "ACC-001-USD"
  /\ upper "ACC-001-USD" = "ACC-001-USD"%string
  /\ contains "ACC-" "ACC-001-USD" = true.
Proof.
  apply (balance_account_id_shape "Check balance for acc-001-usd" "ACC-001-USD").
  - unfold ascii_text. simpl. repeat constructor.
  - vm_compute. reflexivity.
Defined.

(** The question the help text suggests keeps its question mark in the id. *)
Example balance_question_of_the_help_text :
  mock_ai_response "What's the balance of ACC-001-USD?"
  = FromBalance "ACC-001-USD?".
Proof. vm_compute. reflexivity. Qed.

(** ** A question that says "account" and names a sample account *)

(** X19.  An ASCII message that contains the word "account" and the id of
    one of the six sample accounts, in any case, is answered with a listing
    of the accounts of a currency: the currency code inside the id makes
    it an account query, so such a message is never a balance question. *)
Theorem account_word_and_sample_id_list_accounts clock message r :
  ascii_text message ->
  r ∈ sample_accounts clock ->
  contains "account" (lower message) = true ->
  contains (lower r.1) (lower message) = true ->
  exists currency, mock_ai_response message = FromAccounts currency.
Proof.
  intros _ Hr Hacc Hid.
  assert (Hcode : contains "usd" (lower message) = true
                  \/ contains "eur" (lower message) = true
                  \/ contains "gbp" (lower message) = true
                  \/ contains "jpy" (lower message) = true).
  { unfold sample_accounts in Hr.
    repeat (apply elem_of_cons in Hr as [-> | Hr]);
      [..|by apply elem_of_nil in Hr]; simpl in Hid.
    - left. eapply (contains_trans "usd"); [|exact Hid]; vm_compute; reflexivity.
    - left. eapply (contains_trans "usd"); [|exact Hid]; vm_compute; reflexivity.
    - right; left. eapply (contains_trans "eur"); [|exact Hid]; vm_compute; reflexivity.
    - right; left. eapply (contains_trans "eur"); [|exact Hid]; vm_compute; reflexivity.
    - right; right; left. eapply (contains_trans "gbp"); [|exact Hid]; vm_compute; reflexivity.
    - right; right; right. eapply (contains_trans "jpy"); [|exact Hid]; vm_compute; reflexivity. }
  unfold mock_ai_response. rewrite Hacc.
  destruct Hcode as [H|[H|[H|H]]]; rewrite H;
    rewrite ?orb_true_r; simpl; by eexists.
Qed.

Lemma account_word_and_sample_id_list_accounts_witness :
  exists currency,
    mock_ai_response "Check account balance for ACC-003-EUR"
    = FromAccounts currency.
Proof.
  apply (account_word_and_sample_id_list_accounts (fun _ => 0)
           "Check account balance for ACC-003-EUR"
           ("ACC-003-EUR"%string,
            Account.mk "Trading Account EUR" "EUR" "Trading" "Active"
              (Decimal.Fin 75000000 (-2)) 0)).
  - unfold ascii_text. simpl. repeat constructor.
  - unfold sample_accounts. do 2 right. left.
  - vm_compute. reflexivity.
  - vm_compute. reflexivity.
Defined.

(** * Sequences of transfers *)

(** X20.  Through any sequence of requests whose amounts are ASCII text and
    not negative (each with its own generated id and clock, whatever their
    outcomes), a database without a negative balance stays without one. *)
Theorem nonnegative_amounts_never_overdraw reqs s :
  all_nonneg s ->
  Forall (fun r => amount_nonneg r.2) reqs ->
  all_nonneg (run reqs s).
Proof. apply run_keeps_balances_nonneg. Qed.

Lemma nonnegative_amounts_never_overdraw_witness :
  all_nonneg
    (run [("0a1b2c3d4e5f"%string, 10, Scenario.req "A1" "A2" "300.00");
          ("1a1b2c3d4e5f"%string, 11, Scenario.req "A2" "A1" "900.00")]
       Scenario.s0).
Proof.
  apply (nonnegative_amounts_never_overdraw
           [("0a1b2c3d4e5f"%string, 10, Scenario.req "A1" "A2" "300.00");
            ("1a1b2c3d4e5f"%string, 11, Scenario.req "A2" "A1" "900.00")]
           Scenario.s0).
  - unfold all_nonneg. apply map_Forall_lookup. intros i a. simpl.
    rewrite !lookup_insert.
    repeat (case_decide; [intros [= <-]; simpl; lia|]).
    by rewrite lookup_empty.
  - assert (Hreq : forall f t amt d,
              ascii_text amt -> Decimal.of_string amt = Some d -> nonneg d ->
              amount_nonneg (Scenario.req f t amt)).
    { intros f t amt d Hascii Hd Hnn text [= <-]. split; [done|].
      intros d' Hd'. congruence. }
    constructor; [|constructor; [|constructor]].
    + apply (Hreq _ _ _ (Decimal.Fin 30000 (-2))).
      * unfold ascii_text. simpl. repeat constructor.
      * vm_compute. reflexivity.
      * simpl. lia.
    + apply (Hreq _ _ _ (Decimal.Fin 90000 (-2))).
      * unfold ascii_text. simpl. repeat constructor.
      * vm_compute. reflexivity.
      * simpl. lia.
Defined.
